(** * xiaohongshuYemianbujian: URL batch opener and QR scanner

    A shallow embedding of [xhs404Url.py] (class [XhsUrlProcessor]) and
    [qr_scanner.py] (class [QRScanner]), and the properties of their
    extraction, validation, dispatch and retry logic.

    Modelling conventions.
    - Python [str] values are Rocq [string]s; one [ascii] is one code point
      below 256.  The patterns and literals of the two programs are ASCII.
      Text with a code point above 255 is outside the model; so are the
      four such code points that [re.IGNORECASE] lets match an ASCII
      letter (U+017F for s, U+212A for k, U+0130 and U+0131 for i).
    - [re.search] and [re.match] are run by a small backtracking matcher
      over the node lists that the programs' pattern strings denote.
    - The outside world (the [adb] subprocesses, the screen grabber and the
      barcode decoder, the terminal, the file system) is a record of
      oracles; every function that touches it is written in a state and
      exception monad that also emits the trace of external events.
    - [print] calls are omitted, apart from the two lines the properties
      read: the per-URL announcement and the final batch summary.
    - A subprocess either exits or raises an [Exception]; the terminal
      input is a finite sequence of lines and interrupts, and an interrupt
      ([KeyboardInterrupt]) arrives only while [input()] waits. *)

From Stdlib Require Import ZArith List String Ascii Bool Lia DecimalString.
Import ListNotations.

Open Scope string_scope.
Open Scope list_scope.

(** ** Python string operations *)

Module PyStr.

Definition code (c : ascii) : nat := nat_of_ascii c.

Definition in_range (lo hi c : ascii) : bool :=
  (code lo <=? code c)%nat && (code c <=? code hi)%nat.

(** The line feed, [chr(10)]. *)
Definition LF : ascii := ascii_of_nat 10.
Definition TAB : ascii := ascii_of_nat 9.

(** [str.isspace] on one code point below 256. *)
Definition isspace (c : ascii) : bool :=
  let n := code c in
  ((9 <=? n) && (n <=? 13) || (28 <=? n) && (n <=? 32)
   || (n =? 133) || (n =? 160))%nat.

Fixpoint lstrip (s : string) : string :=
  match s with
  | EmptyString => EmptyString
  | String c s' => if isspace c then lstrip s' else s
  end.

Fixpoint rstrip (s : string) : string :=
  match s with
  | EmptyString => EmptyString
  | String c s' =>
      match rstrip s' with
      | EmptyString => if isspace c then EmptyString else String c EmptyString
      | r => String c r
      end
  end.

(** [s.strip()] *)
Definition strip (s : string) : string := rstrip (lstrip s).

(** [c.lower()] on one code point below 256. *)
Definition lower_char (c : ascii) : ascii :=
  let n := code c in
  if ((65 <=? n) && (n <=? 90)
      || (192 <=? n) && (n <=? 222) && negb (n =? 215))%nat
  then ascii_of_nat (n + 32) else c.

(** [c.upper()] restricted to the ASCII letters. *)
Definition upper_ascii (c : ascii) : ascii :=
  let n := code c in
  if ((97 <=? n) && (n <=? 122))%nat then ascii_of_nat (n - 32) else c.

(** [c.lower()] restricted to the ASCII letters. *)
Definition lower_ascii (c : ascii) : ascii :=
  let n := code c in
  if ((65 <=? n) && (n <=? 90))%nat then ascii_of_nat (n + 32) else c.

Fixpoint map_chars (f : ascii -> ascii) (s : string) : string :=
  match s with
  | EmptyString => EmptyString
  | String c s' => String (f c) (map_chars f s')
  end.

(** [s.lower()] *)
Definition lower (s : string) : string := map_chars lower_char s.

Fixpoint all_chars (f : ascii -> bool) (s : string) : bool :=
  match s with
  | EmptyString => true
  | String c s' => f c && all_chars f s'
  end.

(** [s.split(sep)] for a one-character separator. *)
Fixpoint split (sep : ascii) (s : string) : list string :=
  match s with
  | EmptyString => [EmptyString]
  | String c s' =>
      if Ascii.eqb c sep then EmptyString :: split sep s'
      else match split sep s' with
           | h :: t => String c h :: t
           | [] => [String c EmptyString]
           end
  end.

(** [sub in s] *)
Fixpoint contains (sub s : string) : bool :=
  String.prefix sub s ||
  match s with
  | EmptyString => false
  | String _ s' => contains sub s'
  end.

(** [s[n:]] *)
Fixpoint drop (n : nat) (s : string) : string :=
  match n, s with
  | O, _ => s
  | S n', String _ s' => drop n' s'
  | S _, EmptyString => EmptyString
  end.

(** [s[:n]] *)
Fixpoint take (n : nat) (s : string) : string :=
  match n, s with
  | O, _ => EmptyString
  | S n', String c s' => String c (take n' s')
  | S _, EmptyString => EmptyString
  end.

(** [str(n)] for an [int]. *)
Definition str (n : Z) : string := NilZero.string_of_int (Z.to_int n).

End PyStr.

(** ** Regular expressions: the fragment of [re] the programs use *)

Module Re.

Import PyStr.

Inductive atom : Type :=
| Lit (c : ascii)                       (* a literal character *)
| Dot                                   (* [.]: anything but a line feed *)
| Cls (ranges : list (ascii * ascii)).  (* [[a-f0-9]] *)

Inductive node : Type :=
| One (a : atom)               (* a *)
| Opt (a : atom)               (* a?    greedy *)
| Star (a : atom)              (* a*    greedy *)
| Rep (n : nat) (a : atom)     (* a{n} *)
| Bol                          (* ^ *)
| Mark.                        (* a parenthesis: records the position *)

Definition pattern : Type := list node.

Definition in_cls (ranges : list (ascii * ascii)) (c : ascii) : bool :=
  existsb (fun r => in_range (fst r) (snd r) c) ranges.

(** Does atom [a] accept character [c]?  [ic] is [re.IGNORECASE]: among
    the code points below 256 a letter of the pattern matches the same
    ASCII letter in either case, and nothing else. *)
Definition atom_ok (ic : bool) (a : atom) (c : ascii) : bool :=
  match a with
  | Lit l =>
      Ascii.eqb l c || (ic && Ascii.eqb (lower_ascii l) (lower_ascii c))
  | Dot => negb (Ascii.eqb c LF)
  | Cls rs =>
      in_cls rs c
      || (ic && (in_cls rs (lower_ascii c) || in_cls rs (upper_ascii c)))
  end.

(** The matcher.  [len] is the length of the whole subject, [s] the part
    of it not yet consumed.  The result lists, in pattern order, the
    unconsumed part at each [Mark]. *)
Fixpoint m (ic : bool) (len : nat) (p : pattern) {struct p}
  : string -> option (list string) :=
  match p with
  | [] => fun _ => Some []
  | One a :: p' =>
      fun s =>
        match s with
        | String c s' => if atom_ok ic a c then m ic len p' s' else None
        | EmptyString => None
        end
  | Opt a :: p' =>
      fun s =>
        match s with
        | String c s' =>
            if atom_ok ic a c
            then match m ic len p' s' with
                 | Some r => Some r
                 | None => m ic len p' s
                 end
            else m ic len p' s
        | EmptyString => m ic len p' s
        end
  | Star a :: p' =>
      fix star (s : string) : option (list string) :=
        match s with
        | String c s' =>
            if atom_ok ic a c
            then match star s' with
                 | Some r => Some r
                 | None => m ic len p' s
                 end
            else m ic len p' s
        | EmptyString => m ic len p' s
        end
  | Rep n a :: p' =>
      (fix rep (n : nat) (s : string) : option (list string) :=
         match n with
         | O => m ic len p' s
         | S n' =>
             match s with
             | String c s' => if atom_ok ic a c then rep n' s' else None
             | EmptyString => None
             end
         end) n
  | Bol :: p' =>
      fun s => if (String.length s =? len)%nat then m ic len p' s else None
  | Mark :: p' =>
      fun s => option_map (cons s) (m ic len p' s)
  end.

(** A match object: what [group(1)] needs. *)
Record match_obj : Type := { marks : list string }.

(** [mo.group(1)]: the text between the first two marks. *)
Definition group1 (mo : match_obj) : string :=
  match marks mo with
  | s1 :: s2 :: _ => take (String.length s1 - String.length s2) s1
  | _ => EmptyString
  end.

(** [re.match(p, s, flags)] *)
Definition re_match (ic : bool) (p : pattern) (s : string)
  : option match_obj :=
  option_map Build_match_obj (m ic (String.length s) p s).

Fixpoint search_from (ic : bool) (len : nat) (p : pattern) (s : string)
  : option match_obj :=
  match m ic len p s with
  | Some r => Some (Build_match_obj r)
  | None =>
      match s with
      | String _ s' => search_from ic len p s'
      | EmptyString => None
      end
  end.

(** [re.search(p, s, flags)]: the leftmost position where [p] matches. *)
Definition re_search (ic : bool) (p : pattern) (s : string)
  : option match_obj :=
  search_from ic (String.length s) p s.

(** The nodes of a run of literal characters. *)
Fixpoint lits (s : string) : pattern :=
  match s with
  | EmptyString => []
  | String c s' => One (Lit c) :: lits s'
  end.

End Re.

(** ** The outside world, and the monad of the effectful code *)

Module Sys.

Import PyStr.

(** The exceptions the programs can meet. *)
Inductive exn : Type :=
| KeyboardInterrupt
| EOFError
| FileNotFoundError
| TimeoutExpired
| ValueError
| OtherError.

(** [isinstance(e, Exception)]: [KeyboardInterrupt] is a [BaseException]
    only. *)
Definition is_Exception (e : exn) : bool :=
  match e with
  | KeyboardInterrupt => false
  | _ => true
  end.

(** How a [subprocess.run] can fail to return. *)
Inductive run_error : Type :=
| TimedOut        (* subprocess.TimeoutExpired *)
| NoExecutable    (* FileNotFoundError: the program is not on the PATH *)
| OtherFailure.   (* any other [Exception] *)

Definition exn_of (e : run_error) : exn :=
  match e with
  | TimedOut => TimeoutExpired
  | NoExecutable => FileNotFoundError
  | OtherFailure => OtherError
  end.

(** [subprocess.CompletedProcess] *)
Record CompletedProcess : Type := {
  returncode : Z;
  stdout : string;
  stderr : string
}.

Inductive CmdOutcome : Type :=
| Exited (cp : CompletedProcess)
| Failed (e : run_error).

(** What the operator does at an [input()] prompt. *)
Inductive Key : Type :=
| Typed (line : string)
| CtrlC.

Inductive Prompt : Type :=
| AskUrl
| AskContinue.

Inductive FileOutcome : Type :=
| Lines (ls : list string)
| Missing
| Unreadable.

(** A cropped screenshot: which grab it was cut from, and the box. *)
Record Image : Type := {
  shot : nat;
  box : Z * Z * Z * Z
}.

Record World : Type := {
  (** the answer to the k-th [subprocess.run] of the run *)
  subprocess : nat -> CmdOutcome;
  (** the screen size at the k-th [ImageGrab.grab()]; [None]: it raises *)
  screen : nat -> option (Z * Z);
  (** the payloads [pyzbar.decode] reports; [None]: it raises *)
  decode : Image -> option (list string);
  (** the lines of a file; *)
  files : string -> FileOutcome
}.

(** The terminal input is a finite sequence; once it is used up,
    [input()] raises [EOFError]. *)
Record St : Type := {
  n_run : nat;
  n_grab : nat;
  stdin : list Key
}.

Inductive Event : Type :=
| ERun (argv : list string) (timeout : Z) (out : CmdOutcome)
| ESleep (secs : Z)
| EGrab (size : option (Z * Z))
| EDecode (img : Image) (found : option (list string))
| EInput (p : Prompt) (k : option Key)
| EOpen (path : string)
| EProcessing (url : string)
| ESummary (success_count total : Z).

Inductive res (A : Type) : Type :=
| Val (a : A)
| Exc (e : exn).
Arguments Val {A} a.
Arguments Exc {A} e.

Definition M (A : Type) : Type := St -> res A * St * list Event.

Definition ret {A} (a : A) : M A := fun st => (Val a, st, []).

Definition bind {A B} (c : M A) (k : A -> M B) : M B :=
  fun st =>
    match c st with
    | (Val a, st', t) =>
        match k a st' with
        | (r, st'', t') => (r, st'', t ++ t')
        end
    | (Exc e, st', t) => (Exc e, st', t)
    end.

Definition raise {A} (e : exn) : M A := fun st => (Exc e, st, []).

Definition emit (ev : Event) : M unit := fun st => (Val tt, st, [ev]).

(** [try: c  except <those e with handles e>: h e] *)
Definition try_except {A} (c : M A) (handles : exn -> bool)
  (h : exn -> M A) : M A :=
  fun st =>
    match c st with
    | (Exc e, st', t) =>
        if handles e
        then match h e st' with
             | (r, st'', t') => (r, st'', t ++ t')
             end
        else (Exc e, st', t)
    | v => v
    end.

Declare Scope py_scope.
Delimit Scope py_scope with py.
Notation "x <- c ;; k" := (bind c (fun x => k))
  (at level 61, c at next level, right associativity) : py_scope.
Notation "c ;; k" := (bind c (fun _ => k))
  (at level 61, right associativity) : py_scope.
Open Scope py_scope.

Section Primitives.

Variable W : World.

(** [subprocess.run(argv, capture_output=True, text=True, timeout=t)] *)
Definition subprocess_run (argv : list string) (timeout : Z)
  : M CompletedProcess :=
  fun st =>
    let out := subprocess W (n_run st) in
    let st' := {| n_run := S (n_run st); n_grab := n_grab st;
                  stdin := stdin st |} in
    match out with
    | Exited cp => (Val cp, st', [ERun argv timeout out])
    | Failed e => (Exc (exn_of e), st', [ERun argv timeout out])
    end.

(** [time.sleep(secs)] *)
Definition sleep (secs : Z) : M unit :=
  if (secs <? 0)%Z then raise ValueError else emit (ESleep secs).

(** [input(prompt)] *)
Definition input (p : Prompt) : M string :=
  fun st =>
    match stdin st with
    | [] => (Exc EOFError, st, [EInput p None])
    | k :: rest =>
        let st' := {| n_run := n_run st; n_grab := n_grab st;
                      stdin := rest |} in
        match k with
        | Typed line => (Val line, st', [EInput p (Some k)])
        | CtrlC => (Exc KeyboardInterrupt, st', [EInput p (Some k)])
        end
    end.

(** [ImageGrab.grab()], as far as its [size] goes *)
Definition ImageGrab_grab : M (nat * (Z * Z)) :=
  fun st =>
    let k := n_grab st in
    let st' := {| n_run := n_run st; n_grab := S k; stdin := stdin st |} in
    match screen W k with
    | Some sz => (Val (k, sz), st', [EGrab (Some sz)])
    | None => (Exc OtherError, st', [EGrab None])
    end.

(** [PIL.Image.MAX_IMAGE_PIXELS] *)
Definition MAX_IMAGE_PIXELS : Z := 1024 * 1024 * 1024 / 4 / 3.

(** [screen.crop(box)], as far as it can refuse the box: Pillow raises
    [ValueError] for a box whose right edge is left of its left edge or
    whose lower edge is above its upper edge, and
    [DecompressionBombError] for a box of more than twice
    [MAX_IMAGE_PIXELS] pixels. *)
Definition Image_crop (k : nat) (region : Z * Z * Z * Z) : M Image :=
  let '(x0, y0, x1, y1) := region in
  if (x1 <? x0)%Z || (y1 <? y0)%Z then raise ValueError
  else if (Z.abs (x1 - x0) * Z.abs (y1 - y0) >? 2 * MAX_IMAGE_PIXELS)%Z
       then raise OtherError
       else ret {| shot := k; box := region |}.

(** [pyzbar.decode(gray)], each payload already decoded as UTF-8 *)
Definition pyzbar_decode (img : Image) : M (list string) :=
  fun st =>
    match decode W img with
    | Some l => (Val l, st, [EDecode img (Some l)])
    | None => (Exc OtherError, st, [EDecode img None])
    end.

(** [open(path, 'r')] and the iteration over its lines *)
Definition read_lines (path : string) : M (list string) :=
  fun st =>
    match files W path with
    | Lines ls => (Val ls, st, [EOpen path])
    | Missing => (Exc FileNotFoundError, st, [EOpen path])
    | Unreadable => (Exc OtherError, st, [EOpen path])
    end.

End Primitives.

(** Truth value of a [str]-or-[None]. *)
Definition truthy (o : option string) : bool :=
  match o with
  | Some (String _ _) => true
  | _ => false
  end.

Definition Zlen {A} (l : list A) : Z := Z.of_nat (List.length l).

(** [range(1, n + 1)] *)
Definition range1 (n : Z) : list Z :=
  map Z.of_nat (seq 1 (Z.to_nat n)).

End Sys.

(** ** [xhs404Url.py]: class [XhsUrlProcessor] *)

Module XhsUrlProcessor.

Import PyStr Re Sys.

(** [self.adb_package] *)
Definition adb_package : string := "com.xingin.xhs".

(** [r'/explore/([a-f0-9]{24})'] *)
Definition explore_pattern : pattern :=
  lits "/explore/"
  ++ [Mark; Rep 24 (Cls [("a"%char, "f"%char); ("0"%char, "9"%char)]); Mark].

Definition extract_id_from_url (url : string) : option string :=
  match re_search false explore_pattern url with
  | Some mo => Some (group1 mo)
  | None => None
  end.

Definition convert_to_app_url (item_id : string) : string :=
  "xhsdiscover://item/" ++ item_id ++ "?source=pcweb_access_limit".

Section WithWorld.

Variable W : World.

Definition click_coordinate (x y : Z) : M bool :=
  try_except
    (sleep 2 ;;
     result <- subprocess_run W
       ["adb"; "shell"; "input"; "tap"; str x; str y] 10 ;;
     if (returncode result =? 0)%Z then ret true else ret false)
    is_Exception
    (fun _ => ret false).

Definition execute_adb_command (url : string) : M bool :=
  try_except
    (result <- subprocess_run W
       ["adb"; "shell"; "am"; "start";
        "-a"; "android.intent.action.VIEW";
        "-d"; url;
        adb_package] 30 ;;
     if (returncode result =? 0)%Z then ret true else ret false)
    is_Exception
    (fun e =>
       match e with
       | TimeoutExpired => ret false
       | FileNotFoundError => ret false
       | _ => ret false
       end).

Definition process_single_url (url : string) : M bool :=
  emit (EProcessing url) ;;
  let item_id := extract_id_from_url (strip url) in
  if negb (truthy item_id) then ret false
  else
    match item_id with
    | None => ret false
    | Some item_id =>
        let app_url := convert_to_app_url item_id in
        ok <- execute_adb_command app_url ;;
        if ok then
          clicked <- click_coordinate 865 2690 ;;
          if clicked then ret true
          else ret true
        else ret false
    end.

(** The lines of [adb devices] that count as connected devices. *)
Definition connected_devices (out : string) : list string :=
  let devices := tl (split LF (strip out)) in
  filter (fun line =>
            negb (String.eqb (strip line) "") && contains "device" line)
         devices.

Definition check_adb_connection : M bool :=
  try_except
    (result <- subprocess_run W ["adb"; "devices"] 10 ;;
     if (returncode result =? 0)%Z then
       match connected_devices (stdout result) with
       | _ :: _ => ret true
       | [] => ret false
       end
     else ret false)
    is_Exception
    (fun e =>
       match e with
       | FileNotFoundError => ret false
       | _ => ret false
       end).

(** How the [while True] loop that collects the links ends. *)
Inductive collected : Type :=
| Break (urls : list string)
| Return.

(** The [while True] loop of [process_urls_from_input], by recursion on
    the terminal input that is left. *)
Fixpoint collect_urls (keys : list Key) (urls : list string)
  : collected * list Key * list Event :=
  match keys with
  | [] => (Break urls, [], [EInput AskUrl None])            (* EOFError *)
  | CtrlC :: rest => (Return, rest, [EInput AskUrl (Some CtrlC)])
  | Typed l :: rest =>
      let line := strip l in
      if String.eqb line "" then
        (Break urls, rest, [EInput AskUrl (Some (Typed l))])
      else
        match collect_urls rest (urls ++ [line]) with
        | (r, keys', t) => (r, keys', EInput AskUrl (Some (Typed l)) :: t)
        end
  end.

Definition read_urls : M collected :=
  fun st =>
    match collect_urls (stdin st) [] with
    | (r, keys', t) =>
        (Val r, {| n_run := n_run st; n_grab := n_grab st;
                   stdin := keys' |}, t)
    end.

(** The [for i, url in enumerate(urls, 1)] loop of
    [process_urls_from_input]; [n] is [len(urls)] of the whole list. *)
Fixpoint input_loop (urls : list string) (i n success_count : Z) : M Z :=
  match urls with
  | [] => ret success_count
  | url :: rest =>
      ok <- process_single_url url ;;
      let success_count :=
        if ok then (success_count + 1)%Z else success_count in
      if (i <? n)%Z then
        quit <- try_except
                  (continue_choice <- input AskContinue ;;
                   if String.eqb (lower (strip continue_choice)) "q"
                   then ret true else ret false)
                  (fun e => match e with KeyboardInterrupt => true
                                    | _ => false end)
                  (fun _ => ret true) ;;
        if quit then ret success_count
        else input_loop rest (i + 1)%Z n success_count
      else input_loop rest (i + 1)%Z n success_count
  end.

Definition process_urls_from_input : M unit :=
  connected <- check_adb_connection ;;
  if negb connected then ret tt
  else
    r <- read_urls ;;
    match r with
    | Return => ret tt
    | Break [] => ret tt
    | Break urls =>
        success_count <- input_loop urls 1 (Zlen urls) 0 ;;
        emit (ESummary success_count (Zlen urls))
    end.

(** The [for] loop of [process_urls_from_file]. *)
Fixpoint file_loop (urls : list string) (i n success_count : Z) : M Z :=
  match urls with
  | [] => ret success_count
  | url :: rest =>
      ok <- process_single_url url ;;
      let success_count :=
        if ok then (success_count + 1)%Z else success_count in
      (if (i <? n)%Z then sleep 1 else ret tt) ;;
      file_loop rest (i + 1)%Z n success_count
  end.

Definition process_urls_from_file (file_path : string) : M unit :=
  try_except
    (lines <- read_lines W file_path ;;
     let urls :=
       map strip
           (filter (fun line => negb (String.eqb (strip line) "")) lines) in
     match urls with
     | [] => ret tt
     | _ :: _ =>
         connected <- check_adb_connection ;;
         if negb connected then ret tt
         else
           success_count <- file_loop urls 1 (Zlen urls) 0 ;;
           emit (ESummary success_count (Zlen urls))
     end)
    is_Exception
    (fun e =>
       match e with
       | FileNotFoundError => ret tt
       | _ => ret tt
       end).

(** [main()], on [sys.argv]. *)
Definition main (argv : list string) : M unit :=
  match argv with
  | _ :: file_path :: _ => process_urls_from_file file_path
  | _ => process_urls_from_input
  end.

End WithWorld.

End XhsUrlProcessor.

(** ** [qr_scanner.py]: class [QRScanner] *)

Module QRScanner.

Import PyStr Re Sys.

Definition adb_package : string := "com.xingin.xhs".

(** [xhs_patterns] *)
Definition xhs_patterns : list pattern :=
  [ Bol :: lits "xhsdiscover://" ++ [Star Dot];
    Bol :: lits "http" ++ [Opt (Lit "s"%char)] ++ lits "://"
        ++ [Star Dot] ++ lits "xiaohongshu.com" ++ [Star Dot];
    Bol :: lits "http" ++ [Opt (Lit "s"%char)] ++ lits "://"
        ++ [Star Dot] ++ lits "xhslink.com" ++ [Star Dot] ].

Fixpoint validate_loop (patterns : list pattern) (url : string) : bool :=
  match patterns with
  | [] => false
  | pattern :: rest =>
      match re_match true pattern url with
      | Some _ => true
      | None => validate_loop rest url
      end
  end.

Definition validate_xhs_url (url : string) : bool :=
  validate_loop xhs_patterns url.

Section WithWorld.

Variable W : World.

Definition capture_screen_center (size : Z) : M Image :=
  g <- ImageGrab_grab W ;;
  let '(k, (screen_width, screen_height)) := g in
  let center_x := (screen_width / 2)%Z in
  let center_y := (screen_height / 2)%Z in
  let left := (center_x - size / 2)%Z in
  let top := (center_y - size / 2)%Z in
  let right := (center_x + size / 2)%Z in
  let bottom := (center_y + size / 2)%Z in
  center_region <- Image_crop k (left, top, right, bottom) ;;
  ret center_region.

Definition scan_qr_code (image : Image) : M (option string) :=
  decoded_objects <- pyzbar_decode W image ;;
  match decoded_objects with
  | qr_data :: _ => ret (Some qr_data)
  | [] => ret None
  end.

Definition execute_adb_command (url : string) : M bool :=
  try_except
    (result <- subprocess_run W
       ["adb"; "shell"; "am"; "start";
        "-a"; "android.intent.action.VIEW";
        "-d"; url;
        adb_package] 30 ;;
     if (returncode result =? 0)%Z then ret true else ret false)
    is_Exception
    (fun e =>
       match e with
       | TimeoutExpired => ret false
       | FileNotFoundError => ret false
       | _ => ret false
       end).

Definition click_coordinate (x y delay : Z) : M bool :=
  try_except
    (sleep delay ;;
     result <- subprocess_run W
       ["adb"; "shell"; "input"; "tap"; str x; str y] 10 ;;
     if (returncode result =? 0)%Z then ret true else ret false)
    is_Exception
    (fun e =>
       match e with
       | TimeoutExpired => ret false
       | _ => ret false
       end).

Definition connected_devices (out : string) : list string :=
  let lines := split LF (strip out) in
  filter (fun line =>
            negb (String.eqb (strip line) "") && contains "device" line)
         (tl lines).

Definition check_adb_connection : M bool :=
  try_except
    (result <- subprocess_run W ["adb"; "devices"] 10 ;;
     if (returncode result =? 0)%Z then
       match connected_devices (stdout result) with
       | _ :: _ => ret true
       | [] => ret false
       end
     else ret false)
    is_Exception
    (fun _ => ret false).

(** The [try] block of one pass of the loop of [run]: [Some b] when it
    executes [return b], [None] when it falls through. *)
Definition attempt_body : M (option bool) :=
  try_except
    (center_image <- capture_screen_center 800 ;;
     qr_content <- scan_qr_code center_image ;;
     if truthy qr_content then
       match qr_content with
       | None => ret None
       | Some qr_content =>
           if validate_xhs_url qr_content then
             ok <- execute_adb_command qr_content ;;
             if ok then
               clicked <- click_coordinate 800 2210 2 ;;
               if clicked then ret (Some true)
               else ret (Some true)
             else ret (Some false)
           else ret None
       end
     else ret None)
    is_Exception
    (fun _ => ret None).

(** The [for attempt in range(1, max_attempts + 1)] loop of [run] and the
    [return False] after it. *)
Fixpoint attempt_loop (attempts : list Z) (max_attempts delay : Z)
  : M bool :=
  match attempts with
  | [] => ret false
  | attempt :: rest =>
      r <- attempt_body ;;
      match r with
      | Some b => ret b
      | None =>
          (if (attempt <? max_attempts)%Z then sleep delay else ret tt) ;;
          attempt_loop rest max_attempts delay
      end
  end.

Definition run (max_attempts delay : Z) : M bool :=
  connected <- check_adb_connection ;;
  if negb connected then ret false
  else attempt_loop (range1 max_attempts) max_attempts delay.

End WithWorld.

End QRScanner.

(** ** Vocabulary of the statements *)

Module Vocab.

Import PyStr Re Sys.

(** One of [0123456789abcdef]. *)
Definition lower_hex (c : ascii) : bool :=
  existsb (Ascii.eqb c) (list_ascii_of_string "0123456789abcdef").

(** A content identifier: exactly 24 lowercase hexadecimal characters. *)
Definition is_id24 (tok : string) : bool :=
  (String.length tok =? 24)%nat && all_chars lower_hex tok.

(** [t] is a prefix of [s], each character accepted as the literal it
    faces; the result is what follows the prefix. *)
Fixpoint after_lits (ic : bool) (t s : string) : option string :=
  match t, s with
  | EmptyString, _ => Some s
  | String c t', String d s' =>
      if atom_ok ic (Lit c) d then after_lits ic t' s' else None
  | String _ _, EmptyString => None
  end.

(** Exactly [n] characters accepted by [a] start [s]; the result is what
    follows them. *)
Fixpoint after_rep (ic : bool) (a : atom) (n : nat) (s : string)
  : option string :=
  match n with
  | O => Some s
  | S n' =>
      match s with
      | String c s' => if atom_ok ic a c then after_rep ic a n' s' else None
      | EmptyString => None
      end
  end.

(** Equality of strings up to the case of the ASCII letters. *)
Definition ci_eqb (a b : string) : bool :=
  String.eqb (map_chars lower_ascii a) (map_chars lower_ascii b).

Definition no_LF (s : string) : bool :=
  all_chars (fun c => negb (Ascii.eqb c LF)) s.

(** The character class of the identifier pattern. *)
Definition hex_cls : atom :=
  Cls [("a"%char, "f"%char); ("0"%char, "9"%char)].

(** No match of the pattern starts at any of the first [n] positions. *)
Definition no_match_before (n : nat) (url : string) : bool :=
  forallb
    (fun i =>
       match m false (String.length url) XhsUrlProcessor.explore_pattern (drop i url) with
       | Some _ => false
       | None => true
       end)
    (seq 0 n).

(** What may follow the scheme of a web link: [.*<dom>.*]. *)
Definition web_tail (dom : string) : pattern :=
  (Star Dot :: lits dom ++ [Star Dot])%list.

(** [^https?://] followed by [q]. *)
Definition with_scheme (q : pattern) : pattern :=
  (Bol :: lits "http" ++ [Opt (Lit "s"%char)] ++ lits "://" ++ q)%list.

(** *** Reading traces *)

(** Did the command end with exit status 0? *)
Definition cmd_ok (out : CmdOutcome) : bool :=
  match out with
  | Exited cp => (returncode cp =? 0)%Z
  | Failed _ => false
  end.

(** Does [adb devices] report at least one connected device? *)
Definition devices_ok (out : CmdOutcome) : bool :=
  match out with
  | Exited cp =>
      (returncode cp =? 0)%Z
      && match XhsUrlProcessor.connected_devices (stdout cp) with
         | [] => false
         | _ :: _ => true
         end
  | Failed _ => false
  end.

Definition bump (st : St) : St :=
  {| n_run := S (n_run st); n_grab := n_grab st; stdin := stdin st |}.

(** The command line of a dispatch, [adb shell am start ... -d url pkg]. *)
Definition am_start (url : string) : list string :=
  ["adb"; "shell"; "am"; "start"; "-a"; "android.intent.action.VIEW";
   "-d"; url; "com.xingin.xhs"].

(** The command line of a tap. *)
Definition input_tap (x y : string) : list string :=
  ["adb"; "shell"; "input"; "tap"; x; y].

Fixpoint starts_with (pre argv : list string) : bool :=
  match pre, argv with
  | [], _ => true
  | p :: pre', a :: argv' => String.eqb p a && starts_with pre' argv'
  | _ :: _, [] => false
  end.

Definition is_dispatch (e : Event) : bool :=
  match e with
  | ERun argv _ _ => starts_with ["adb"; "shell"; "am"; "start"] argv
  | _ => false
  end.

Definition is_dispatch_ok (e : Event) : bool :=
  match e with
  | ERun argv _ out =>
      starts_with ["adb"; "shell"; "am"; "start"] argv && cmd_ok out
  | _ => false
  end.

Definition is_devices (e : Event) : bool :=
  match e with
  | ERun argv _ _ => starts_with ["adb"; "devices"] argv
  | _ => false
  end.

Definition is_grab (e : Event) : bool :=
  match e with
  | EGrab _ => true
  | _ => false
  end.

Definition is_sleep (secs : Z) (e : Event) : bool :=
  match e with
  | ESleep n => (n =? secs)%Z
  | _ => false
  end.

Definition count (f : Event -> bool) (t : list Event) : nat :=
  List.length (filter f t).

(** The URIs handed to [am start], in order. *)
Definition dispatched (t : list Event) : list string :=
  flat_map (fun e =>
              match e with
              | ERun argv _ _ =>
                  if starts_with ["adb"; "shell"; "am"; "start"] argv
                  then [nth 7 argv ""] else []
              | _ => []
              end) t.

(** The coordinates tapped, in order, as they stand on the command line. *)
Definition tapped (t : list Event) : list (string * string) :=
  flat_map (fun e =>
              match e with
              | ERun argv _ _ =>
                  if starts_with ["adb"; "shell"; "input"; "tap"] argv
                  then [(nth 4 argv "", nth 5 argv "")] else []
              | _ => []
              end) t.

(** The URLs announced as being processed, in order. *)
Definition processed (t : list Event) : list string :=
  flat_map (fun e => match e with EProcessing u => [u] | _ => [] end) t.

(** The batch summaries printed. *)
Definition summaries (t : list Event) : list (Z * Z) :=
  flat_map (fun e => match e with ESummary c n => [(c, n)] | _ => [] end) t.

(** The operator's answers at the continue prompt, in order. *)
Definition continue_answers (t : list Event) : list (option Key) :=
  flat_map (fun e =>
              match e with
              | EInput AskContinue k => [k]
              | _ => []
              end) t.

(** An answer at the continue prompt that lets the batch go on. *)
Definition goes_on (k : option Key) : bool :=
  match k with
  | Some (Typed l) => negb (String.eqb (lower (strip l)) "q")
  | _ => false
  end.

(** The lines of a file that [process_urls_from_file] keeps. *)
Definition file_urls (ls : list string) : list string :=
  map strip (filter (fun line => negb (String.eqb (strip line) "")) ls).

(** What [process_single_url] does, case by case. *)
Definition single_url_run (W : World) (url : string) (st : St)
  : res bool * St * list Event :=
  match XhsUrlProcessor.extract_id_from_url (strip url) with
  | Some (String c id) =>
      let link := XhsUrlProcessor.convert_to_app_url (String c id) in
      let out := subprocess W (n_run st) in
      if cmd_ok out then
        (Val true, bump (bump st),
         [EProcessing url; ERun (am_start link) 30 out; ESleep 2;
          ERun (input_tap "865" "2690") 10 (subprocess W (S (n_run st)))])
      else
        (Val false, bump st, [EProcessing url; ERun (am_start link) 30 out])
  | _ => (Val false, st, [EProcessing url])
  end.

(** A tap whose command did not end with exit status 0. *)
Definition is_tap_failed (e : Event) : bool :=
  match e with
  | ERun argv _ out =>
      starts_with ["adb"; "shell"; "input"; "tap"] argv && negb (cmd_ok out)
  | _ => false
  end.

Definition is_run (e : Event) : bool :=
  match e with
  | ERun _ _ _ => true
  | _ => false
  end.

Definition grabbed (st : St) : St :=
  {| n_run := n_run st; n_grab := S (n_grab st); stdin := stdin st |}.

(** The image [capture_screen_center(800)] cuts from the k-th grab of a
    screen of size [sz]. *)
Definition center_image (k : nat) (sz : Z * Z) : Image :=
  {| shot := k;
     box := ((fst sz / 2 - 800 / 2)%Z, (snd sz / 2 - 800 / 2)%Z,
             (fst sz / 2 + 800 / 2)%Z, (snd sz / 2 + 800 / 2)%Z) |}.

(** What one pass of the loop of [QRScanner.run] does, case by case. *)
Definition attempt_run (W : World) (st : St)
  : res (option bool) * St * list Event :=
  match screen W (n_grab st) with
  | None => (Val None, grabbed st, [EGrab None])
  | Some sz =>
      let img := center_image (n_grab st) sz in
      let found := decode W img in
      let seen := [EGrab (Some sz); EDecode img found] in
      match found with
      | Some (String c q :: _) =>
          let payload := String c q in
          if QRScanner.validate_xhs_url payload then
            let out := subprocess W (n_run st) in
            if cmd_ok out then
              (Val (Some true), bump (bump (grabbed st)),
               (seen ++ [ERun (am_start payload) 30 out; ESleep 2;
                         ERun (input_tap "800" "2210") 10
                              (subprocess W (S (n_run st)))])%list)
            else
              (Val (Some false), bump (grabbed st),
               (seen ++ [ERun (am_start payload) 30 out])%list)
          else (Val None, grabbed st, seen)
      | _ => (Val None, grabbed st, seen)
      end
  end.

Definition with_stdin (st : St) (keys : list Key) : St :=
  {| n_run := n_run st; n_grab := n_grab st; stdin := keys |}.

(** [success_count] after an item whose processing returned [ok]. *)
Definition tally (ok : bool) (success_count : Z) : Z :=
  if ok then (success_count + 1)%Z else success_count.

(** The first payload of every successful decoding, in order. *)
Definition decoded_first (t : list Event) : list string :=
  flat_map (fun e =>
              match e with
              | EDecode _ (Some (q :: _)) => [q]
              | _ => []
              end) t.


(** What is dispatched was decoded, and accepted by the validator. *)
Definition from_screen (t : list Event) : Prop :=
  incl (dispatched t) (filter QRScanner.validate_xhs_url (decoded_first t)).

(** The value (or exception) and the trace of a finished computation. *)
Definition result_of {A} (x : res A * St * list Event) : res A :=
  fst (fst x).

Definition trace_of {A} (x : res A * St * list Event) : list Event :=
  snd x.

(** *** Further vocabulary *)

(** A URL as the batch loops receive it: not empty, nothing to strip. *)
Definition clean (u : string) : bool :=
  negb (String.eqb u "") && String.eqb (strip u) u.

Definition is_input (e : Event) : bool :=
  match e with
  | EInput _ _ => true
  | _ => false
  end.


(** Does the pattern match at the start of [s]? *)
Definition matches (ic : bool) (len : nat) (p : pattern) (s : string)
  : bool :=
  match m ic len p s with
  | Some _ => true
  | None => false
  end.

(** The deep links of the URLs that have an identifier, in order. *)
Definition links_of (urls : list string) : list string :=
  flat_map (fun u =>
              match XhsUrlProcessor.extract_id_from_url (strip u) with
              | Some (String c id) =>
                  [XhsUrlProcessor.convert_to_app_url (String c id)]
              | _ => []
              end) urls.


(** A trace dispatches the links of the URLs it processes. *)
Definition linked (t : list Event) : Prop :=
  dispatched t = links_of (processed t).

End Vocab.

(** ** Concrete worlds *)

Module Scenarios.

Import PyStr Re Sys.

Definition exit0 : CmdOutcome :=
  Exited {| returncode := 0; stdout := ""; stderr := "" |}.

(** [adb devices] with one device attached. *)
Definition one_device : CmdOutcome :=
  Exited {| returncode := 0;
            stdout := "List of devices attached"
                      ++ String LF ("emulator-5554" ++ String TAB "device")
                      ++ String LF (String LF "");
            stderr := "" |}.

(** [adb devices] with nothing attached. *)
Definition no_device : CmdOutcome :=
  Exited {| returncode := 0;
            stdout := "List of devices attached" ++ String LF (String LF "");
            stderr := "" |}.

(** A world that answers the successive commands with [cmds] (and exit
    status 0 after them), shows [payloads] in every screenshot of a
    1920x1080 screen, and holds [lines] in every file. *)
Definition world (cmds : list CmdOutcome) (payloads lines : list string)
  : World :=
  {| subprocess := fun k => nth k cmds exit0;
     screen := fun _ => Some (1920, 1080)%Z;
     decode := fun _ => Some payloads;
     files := fun _ => Lines lines |}.

Definition start (keys : list Key) : St :=
  {| n_run := 0; n_grab := 0; stdin := keys |}.

Definition web_url : string :=
  "https://www.xiaohongshu.com/explore/652b91f0000000001f03b570?xsec_token=abc".

Definition other_url : string :=
  "https://www.xiaohongshu.com/explore/0123456789abcdef01234567".

End Scenarios.

(** ** Facts about the matcher *)

Module ReFacts.

Import PyStr Re Vocab.
Local Open Scope string_scope.

#[local] Arguments atom_ok : simpl never.

Lemma m_lits ic len t p s :
  m ic len (lits t ++ p)%list s =
  match after_lits ic t s with
  | Some s' => m ic len p s'
  | None => None
  end.
Proof.
  revert s; induction t as [|c t IH]; intros s; simpl.
  - reflexivity.
  - destruct s as [|d s]; [reflexivity|].
    destruct (atom_ok ic (Lit c) d); [apply IH | reflexivity].
Qed.

Lemma m_rep ic len n a p s :
  m ic len (Rep n a :: p) s =
  match after_rep ic a n s with
  | Some s' => m ic len p s'
  | None => None
  end.
Proof.
  revert s; induction n as [|n IH]; intros s.
  - reflexivity.
  - destruct s as [|c s]; [reflexivity|].
    simpl after_rep. destruct (atom_ok ic a c) eqn:E.
    + rewrite <- IH. simpl. rewrite E. reflexivity.
    + simpl. rewrite E. reflexivity.
Qed.

Lemma m_mark ic len p s :
  m ic len (Mark :: p) s = option_map (cons s) (m ic len p s).
Proof. reflexivity. Qed.

Lemma m_star_cons ic len a p c s :
  m ic len (Star a :: p) (String c s) =
  if atom_ok ic a c
  then match m ic len (Star a :: p) s with
       | Some r => Some r
       | None => m ic len p (String c s)
       end
  else m ic len p (String c s).
Proof. reflexivity. Qed.

Lemma m_star_nil ic len a p :
  m ic len (Star a :: p) EmptyString = m ic len p EmptyString.
Proof. reflexivity. Qed.

(** [a*] followed by [p] matches exactly when [p] matches after some run
    of characters accepted by [a]. *)
Lemma m_star_some ic len a p s :
  m ic len (Star a :: p) s <> None <->
  exists mid rest,
    s = mid ++ rest /\ all_chars (atom_ok ic a) mid = true
    /\ m ic len p rest <> None.
Proof.
  induction s as [|c s IH].
  - rewrite m_star_nil. split.
    + intros H. exists EmptyString, EmptyString. auto.
    + intros (mid & rest & E & _ & H).
      destruct mid; [|discriminate]. simpl in E. subst rest. exact H.
  - rewrite m_star_cons. split.
    + intros H. destruct (atom_ok ic a c) eqn:Ec.
      * destruct (m ic len (Star a :: p) s) eqn:Es.
        -- destruct (proj1 IH) as (mid & rest & E & Hm & Hr);
             [discriminate|].
           exists (String c mid), rest. simpl. rewrite Ec, Hm, E. auto.
        -- exists EmptyString, (String c s). auto.
      * exists EmptyString, (String c s). auto.
    + intros (mid & rest & E & Hm & Hr).
      destruct mid as [|d mid].
      * simpl in E. subst rest.
        destruct (atom_ok ic a c); [|exact Hr].
        destruct (m ic len (Star a :: p) s); [discriminate|exact Hr].
      * simpl in E. injection E as <- ->. simpl in Hm.
        apply andb_true_iff in Hm as [Hc Hm]. rewrite Hc.
        assert (Hs : m ic len (Star a :: p) (mid ++ rest) <> None)
          by (apply IH; exists mid, rest; auto).
        destruct (m ic len (Star a :: p) (mid ++ rest));
          [discriminate | contradiction].
Qed.

Lemma after_lits_app ic t s rest :
  after_lits ic t s = Some rest ->
  exists pre, s = pre ++ rest /\ String.length pre = String.length t
              /\ after_lits ic t pre = Some EmptyString.
Proof.
  revert s; induction t as [|c t IH]; intros s H; simpl in H.
  - injection H as <-. exists EmptyString. auto.
  - destruct s as [|d s]; [discriminate|].
    destruct (atom_ok ic (Lit c) d) eqn:E; [|discriminate].
    destruct (IH _ H) as (pre & -> & Hl & Hp).
    exists (String d pre). simpl. rewrite E, Hl. auto.
Qed.

Lemma after_lits_intro ic t pre rest :
  after_lits ic t pre = Some EmptyString ->
  after_lits ic t (pre ++ rest) = Some rest.
Proof.
  revert pre; induction t as [|c t IH]; intros pre H; simpl in *.
  - destruct pre; [reflexivity | discriminate].
  - destruct pre as [|d pre]; [discriminate|]. simpl.
    destruct (atom_ok ic (Lit c) d); [auto | discriminate].
Qed.

Lemma after_rep_app ic a n s rest :
  after_rep ic a n s = Some rest ->
  exists tok, s = tok ++ rest /\ String.length tok = n
              /\ all_chars (atom_ok ic a) tok = true.
Proof.
  revert s; induction n as [|n IH]; intros s H; simpl in H.
  - injection H as <-. exists EmptyString. auto.
  - destruct s as [|c s]; [discriminate|].
    destruct (atom_ok ic a c) eqn:E; [|discriminate].
    destruct (IH _ H) as (tok & -> & Hl & Ha).
    exists (String c tok). simpl. rewrite E, Hl, Ha. auto.
Qed.

Lemma after_rep_intro ic a tok rest :
  all_chars (atom_ok ic a) tok = true ->
  after_rep ic a (String.length tok) (tok ++ rest) = Some rest.
Proof.
  induction tok as [|c tok IH]; simpl; intros H; [reflexivity|].
  apply andb_true_iff in H as [-> H]. auto.
Qed.

Lemma length_app (s t : string) :
  String.length (s ++ t) = (String.length s + String.length t)%nat.
Proof. induction s; simpl; auto. Qed.

Lemma take_app (s t : string) : take (String.length s) (s ++ t) = s.
Proof. induction s; simpl; [destruct t; reflexivity | f_equal; auto]. Qed.

Lemma drop_app (s t : string) : drop (String.length s) (s ++ t) = t.
Proof. induction s; simpl; auto. Qed.

Lemma app_assoc (a b c : string) : (a ++ b) ++ c = a ++ (b ++ c).
Proof. induction a; simpl; [reflexivity | f_equal; auto]. Qed.

Lemma app_nil_r (a : string) : a ++ "" = a.
Proof. induction a; simpl; [reflexivity | f_equal; auto]. Qed.

(** [re.search] returns the match at the leftmost position that has one. *)
Lemma search_from_some ic len p s mo :
  search_from ic len p s = Some mo ->
  exists pre s',
    s = pre ++ s' /\ m ic len p s' = Some (marks mo)
    /\ forall i, (i < String.length pre)%nat -> m ic len p (drop i s) = None.
Proof.
  induction s as [|c s IH]; simpl.
  - destruct (m ic len p "") eqn:E; [|discriminate].
    intros H. injection H as <-. exists "", "". simpl.
    repeat split; auto. intros i Hi. lia.
  - destruct (m ic len p (String c s)) eqn:E.
    + intros H. injection H as <-. exists "", (String c s). simpl.
      repeat split; auto. intros i Hi. lia.
    + intros H. destruct (IH H) as (pre & s' & -> & Hm & Hn).
      exists (String c pre), s'. repeat split; auto.
      intros [|i] Hi; simpl; [exact E|]. apply Hn. simpl in Hi. lia.
Qed.


Lemma search_from_first ic len p pre s' r :
  m ic len p s' = Some r ->
  (forall i, (i < String.length pre)%nat ->
             m ic len p (drop i (pre ++ s')) = None) ->
  search_from ic len p (pre ++ s') = Some {| marks := r |}.
Proof.
  induction pre as [|c pre IH]; intros Hm Hn.
  - simpl. destruct s'; simpl; rewrite Hm; reflexivity.
  - simpl. pose proof (Hn 0%nat ltac:(simpl; lia)) as H0. simpl in H0.
    rewrite H0. apply IH; auto.
    intros i Hi. apply (Hn (S i)). simpl. lia.
Qed.

End ReFacts.

(** ** The identifier extractor and the deep-link builder *)

Module UrlFacts.

Import PyStr Re Vocab ReFacts XhsUrlProcessor.
Local Open Scope string_scope.

#[local] Arguments atom_ok : simpl never.

Lemma hex_cls_ok c : atom_ok false hex_cls c = lower_hex c.
Proof. destruct c as [[] [] [] [] [] [] [] []]; reflexivity. Qed.

Lemma all_hex_cls tok :
  all_chars (atom_ok false hex_cls) tok = all_chars lower_hex tok.
Proof.
  induction tok as [|c tok IH]; simpl; [reflexivity|].
  rewrite hex_cls_ok, IH. reflexivity.
Qed.

Lemma lit_exact c d : atom_ok false (Lit c) d = true <-> c = d.
Proof.
  unfold atom_ok. simpl. rewrite orb_false_r. apply Ascii.eqb_eq.
Qed.

Lemma after_lits_exact t s rest :
  after_lits false t s = Some rest <-> s = t ++ rest.
Proof.
  revert s; induction t as [|c t IH]; intros s; simpl.
  - split; [intros H; injection H as <-; reflexivity | intros ->; reflexivity].
  - destruct s as [|d s]; [split; discriminate|].
    destruct (atom_ok false (Lit c) d) eqn:E.
    + apply lit_exact in E. subst d. rewrite IH.
      split; [intros ->; reflexivity | intros H; injection H; auto].
    + split; [discriminate|]. intros H. injection H as -> _.
      assert (atom_ok false (Lit c) c = true) by (apply lit_exact; reflexivity).
      congruence.
Qed.

(** The pattern anchored at the start of [s]. *)
Lemma explore_here len s r :
  m false len explore_pattern s = Some r <->
  exists tok rest,
    s = "/explore/" ++ tok ++ rest /\ is_id24 tok = true
    /\ r = [tok ++ rest; rest].
Proof.
  unfold explore_pattern. rewrite m_lits.
  destruct (after_lits false "/explore/" s) as [s1|] eqn:E1.
  - apply after_lits_exact in E1. subst s.
    rewrite m_mark, m_rep. fold hex_cls.
    destruct (after_rep false hex_cls 24 s1) as [s2|] eqn:E2.
    + destruct (after_rep_app _ _ _ _ _ E2) as (tok & -> & Hl & Ha).
      rewrite all_hex_cls in Ha.
      change (m false len [Mark] s2) with (Some [s2]).
      cbn [option_map]. split.
      * intros H. injection H as <-. exists tok, s2.
        unfold is_id24. rewrite Hl, Ha. auto.
      * intros (tok' & rest' & E & Hid & ->).
        unfold is_id24 in Hid. apply andb_true_iff in Hid as [Hl' _].
        apply Nat.eqb_eq in Hl'.
        assert (Et : tok ++ s2 = tok' ++ rest') by (injection E; auto).
        assert (tok = tok').
        { rewrite <- (take_app tok s2), <- (take_app tok' rest').
          rewrite Hl, Hl', Et. reflexivity. }
        subst tok'.
        assert (s2 = rest').
        { rewrite <- (drop_app tok s2), <- (drop_app tok rest') at 1.
          rewrite Et. reflexivity. }
        subst rest'. reflexivity.
    + cbn [option_map]. split; [discriminate|].
      intros (tok & rest & E & Hid & _). exfalso.
      assert (Et : s1 = tok ++ rest) by (injection E; auto).
      unfold is_id24 in Hid. apply andb_true_iff in Hid as [Hl Ha].
      apply Nat.eqb_eq in Hl. rewrite <- all_hex_cls in Ha.
      pose proof (after_rep_intro false hex_cls tok rest Ha) as H.
      rewrite Hl, <- Et in H. congruence.
  - split; [discriminate|].
    intros (tok & rest & E & _). exfalso.
    assert (after_lits false "/explore/" s = Some (tok ++ rest))
      by (apply after_lits_exact; exact E).
    congruence.
Qed.

Lemma group1_marks tok rest :
  group1 {| marks := [tok ++ rest; rest] |} = tok.
Proof.
  unfold group1. simpl. rewrite length_app.
  replace (String.length tok + String.length rest - String.length rest)%nat
    with (String.length tok) by lia.
  apply take_app.
Qed.

Lemma take_drop i s : take i s ++ drop i s = s.
Proof.
  revert s; induction i as [|i IH]; intros [|c s]; simpl; auto.
  f_equal. apply IH.
Qed.

Lemma length_take i s :
  (i <= String.length s)%nat -> String.length (take i s) = i.
Proof.
  revert s; induction i as [|i IH]; intros [|c s]; simpl; intros H;
    auto; try lia.
  f_equal. apply IH. lia.
Qed.

(** Whenever a token is returned, it is a 24-hex token that follows the
    leftmost [/explore/] that has one. *)
Lemma extract_some url tok :
  extract_id_from_url url = Some tok ->
  is_id24 tok = true /\
  exists pre rest,
    url = pre ++ "/explore/" ++ tok ++ rest
    /\ forall i, (i < String.length pre)%nat ->
                 m false (String.length url) explore_pattern (drop i url)
                 = None.
Proof.
  unfold extract_id_from_url, re_search.
  destruct (search_from false (String.length url) explore_pattern url)
    as [mo|] eqn:E; [|discriminate].
  intros H. injection H as <-.
  destruct (search_from_some _ _ _ _ _ E) as (pre & s' & Hu & Hm & Hn).
  apply explore_here in Hm as (tok & rest & -> & Hid & Hr).
  destruct mo as [mk]. simpl in Hr. subst mk.
  rewrite group1_marks. split; [exact Hid|].
  exists pre, rest. split; [exact Hu | exact Hn].
Qed.


Lemma occurrence_matches len pre tok rest :
  is_id24 tok = true ->
  m false len explore_pattern
    (drop (String.length pre) (pre ++ "/explore/" ++ tok ++ rest))
  = Some [tok ++ rest; rest].
Proof.
  intros Hid. rewrite drop_app. apply explore_here. exists tok, rest. auto.
Qed.

Lemma extract_leftmost pre tok rest :
  is_id24 tok = true ->
  (forall i, (i < String.length pre)%nat ->
     m false (String.length (pre ++ "/explore/" ++ tok ++ rest))
       explore_pattern (drop i (pre ++ "/explore/" ++ tok ++ rest)) = None) ->
  extract_id_from_url (pre ++ "/explore/" ++ tok ++ rest) = Some tok.
Proof.
  intros Hid Hn. unfold extract_id_from_url, re_search.
  rewrite (search_from_first false _ explore_pattern pre
             ("/explore/" ++ tok ++ rest) [tok ++ rest; rest]).
  - rewrite group1_marks. reflexivity.
  - apply explore_here. exists tok, rest. auto.
  - exact Hn.
Qed.

(** A match at position [i] is an occurrence whose prefix has length [i]. *)
Lemma match_is_occurrence len url i r :
  (i <= String.length url)%nat ->
  m false len explore_pattern (drop i url) = Some r ->
  exists pre tok rest,
    url = pre ++ "/explore/" ++ tok ++ rest /\ is_id24 tok = true
    /\ String.length pre = i.
Proof.
  intros Hi Hm. apply explore_here in Hm as (tok & rest & E & Hid & _).
  exists (take i url), tok, rest. rewrite <- E, take_drop.
  repeat split; auto. apply length_take. exact Hi.
Qed.

End UrlFacts.

Module UrlClaims.

Import PyStr Re Vocab ReFacts UrlFacts XhsUrlProcessor.
Local Open Scope string_scope.

Lemma no_match_before_correct n url :
  no_match_before n url = true ->
  forall i, (i < n)%nat ->
    m false (String.length url) explore_pattern (drop i url) = None.
Proof.
  unfold no_match_before. rewrite forallb_forall. intros H i Hi.
  specialize (H i). rewrite in_seq in H.
  destruct (m false (String.length url) explore_pattern (drop i url)).
  - discriminate H. lia.
  - reflexivity.
Qed.

(** An occurrence of the pattern cannot start at a position where the
    matcher fails. *)
Lemma occurrence_not_before n url pre tok rest :
  no_match_before n url = true ->
  url = pre ++ "/explore/" ++ tok ++ rest ->
  is_id24 tok = true ->
  (n <= String.length pre)%nat.
Proof.
  intros Hb E Hid.
  destruct (le_lt_dec n (String.length pre)) as [H|H]; [exact H|].
  pose proof (no_match_before_correct _ _ Hb _ H) as Hn.
  pose proof (occurrence_matches (String.length url) pre tok rest Hid) as Hm.
  rewrite <- E in Hm. congruence.
Qed.



(** C3, refuted as stated: this URL contains the path segment
    [/explore/bbbbbbbbbbbbbbbbbbbbbbbb], of the claimed form, but a run of
    26 hexadecimal characters follows an earlier [/explore/]; the
    extractor returns the first 24 characters of that run, not the token
    of the segment. *)
Lemma extract_id_prefers_the_leftmost_run :
  let long := "aaaaaaaaaaaaaaaaaaaaaaaaaa" in
  let tok := "bbbbbbbbbbbbbbbbbbbbbbbb" in
  let url := "https://h/explore/" ++ long ++ "/explore/" ++ tok in
  url = ("https://h/explore/" ++ long) ++ "/explore/" ++ tok ++ ""
  /\ is_id24 tok = true
  /\ String.length long = 26%nat
  /\ extract_id_from_url url = Some "aaaaaaaaaaaaaaaaaaaaaaaa"
  /\ extract_id_from_url url <> Some tok.
Proof. repeat split. discriminate. Qed.

(** C3, amended: when [/explore/] followed by a 24-character lowercase
    hexadecimal token [tok] occurs in a URL, and no such occurrence
    starts further to the left, [extract_id_from_url] returns exactly
    [tok], whatever follows the token; the link built from it is
    [xhsdiscover://item/<tok>?source=pcweb_access_limit].  The example of
    the specification is the last two conjuncts. *)
Theorem extract_id_returns_the_token (pre tok rest : string) :
  is_id24 tok = true ->
  (forall pre' tok' rest',
      pre ++ "/explore/" ++ tok ++ rest = pre' ++ "/explore/" ++ tok' ++ rest' ->
      is_id24 tok' = true ->
      (String.length pre <= String.length pre')%nat) ->
  extract_id_from_url (pre ++ "/explore/" ++ tok ++ rest) = Some tok
  /\ extract_id_from_url
       "https://www.xiaohongshu.com/explore/652b91f0000000001f03b570?xsec_token=abc"
     = Some "652b91f0000000001f03b570"
  /\ convert_to_app_url "652b91f0000000001f03b570"
     = "xhsdiscover://item/652b91f0000000001f03b570?source=pcweb_access_limit".
Proof.
  intros Hid Hleft. split; [|split; reflexivity].
  apply extract_leftmost; [exact Hid|].
  intros i Hi.
  set (url := pre ++ "/explore/" ++ tok ++ rest) in *.
  destruct (m false (String.length url) explore_pattern (drop i url))
    as [r|] eqn:E; [|reflexivity].
  exfalso.
  assert (Hlen : (i <= String.length url)%nat).
  { unfold url. rewrite length_app. lia. }
  destruct (match_is_occurrence _ _ _ _ Hlen E)
    as (pre' & tok' & rest' & Hu & Hid' & Hl).
  specialize (Hleft pre' tok' rest' Hu Hid'). lia.
Qed.

(** The example of the specification, through the theorem. *)
Lemma extract_id_returns_the_token_witness :
  extract_id_from_url
    ("https://www.xiaohongshu.com" ++ "/explore/"
     ++ "652b91f0000000001f03b570" ++ "?xsec_token=abc")
  = Some "652b91f0000000001f03b570".
Proof.
  refine (proj1 (extract_id_returns_the_token
                   "https://www.xiaohongshu.com" "652b91f0000000001f03b570"
                   "?xsec_token=abc" _ _)).
  - reflexivity.
  - intros pre' tok' rest' E Hid.
    apply (occurrence_not_before 27
             ("https://www.xiaohongshu.com" ++ "/explore/"
              ++ "652b91f0000000001f03b570" ++ "?xsec_token=abc")
             pre' tok' rest'); [|exact E|exact Hid].
    vm_compute. reflexivity.
Defined.

(** C4: the link builder is a function of the identifier alone; its value
    is [xhsdiscover://item/<id>?source=pcweb_access_limit], so equal
    identifiers give equal links, and it loses nothing of the
    identifier: different identifiers give different links. *)
Theorem convert_to_app_url_canonical (item_id : string) :
  convert_to_app_url item_id
  = "xhsdiscover" ++ "://item/" ++ item_id ++ "?source=" ++ "pcweb_access_limit"
  /\ (forall other, other = item_id ->
        convert_to_app_url other = convert_to_app_url item_id)
  /\ (forall other,
        convert_to_app_url other = convert_to_app_url item_id ->
        other = item_id)
  /\ String.length (convert_to_app_url item_id)
     = (45 + String.length item_id)%nat.
Proof.
  unfold convert_to_app_url. repeat split.
  - intros other ->. reflexivity.
  - intros other H. simpl in H.
    repeat (injection H as H).
    revert item_id H. induction other as [|c o IH]; intros [|d i] H.
    + reflexivity.
    + simpl in H. injection H as Hc H.
      exfalso. clear -H.
      assert (L : String.length "source=pcweb_access_limit"
                  = String.length (i ++ "?source=pcweb_access_limit"))
        by (rewrite <- H; reflexivity).
      rewrite length_app in L. simpl in L. lia.
    + simpl in H. injection H as Hc H.
      exfalso. clear -H.
      assert (L : String.length (o ++ "?source=pcweb_access_limit")
                  = String.length "source=pcweb_access_limit")
        by (rewrite H; reflexivity).
      rewrite length_app in L. simpl in L. lia.
    + simpl in H. injection H as -> H. f_equal. apply IH. exact H.
  - simpl. rewrite length_app. simpl. lia.
Qed.

End UrlClaims.

(** ** The payload validator *)

Module ValidatorFacts.

Import PyStr Re Vocab ReFacts QRScanner.
Local Open Scope string_scope.

#[local] Arguments atom_ok : simpl never.

Lemma m_bol ic p s :
  m ic (String.length s) (Bol :: p) s = m ic (String.length s) p s.
Proof. simpl. rewrite Nat.eqb_refl. reflexivity. Qed.

Lemma m_opt_some ic len a p s :
  m ic len (Opt a :: p) s <> None <->
  (exists c s', s = String c s' /\ atom_ok ic a c = true
                /\ m ic len p s' <> None)
  \/ m ic len p s <> None.
Proof.
  destruct s as [|c s]; simpl.
  - split; [auto|]. intros [(c & s' & E & _)|H]; [discriminate | exact H].
  - destruct (atom_ok ic a c) eqn:Ec.
    + destruct (m ic len p s) eqn:Es.
      * split; [|discriminate]. intros _. left. exists c, s.
        rewrite Es. repeat split; auto. discriminate.
      * split; [auto|].
        intros [(c' & s' & E & _ & H)|H]; [|exact H].
        injection E as <- <-. congruence.
    + split; [auto|].
      intros [(c' & s' & E & Hc & _)|H]; [|exact H].
      injection E as <- <-. congruence.
Qed.

Lemma m_star_last ic len a s : m ic len [Star a] s <> None.
Proof.
  apply m_star_some. exists "", s. repeat split. discriminate.
Qed.

Lemma lower_ascii_idem c : lower_ascii (lower_ascii c) = lower_ascii c.
Proof. destruct c as [[] [] [] [] [] [] [] []]; reflexivity. Qed.

Lemma lit_ci c d :
  atom_ok true (Lit c) d = true <-> lower_ascii c = lower_ascii d.
Proof.
  unfold atom_ok. simpl. rewrite orb_true_iff, !Ascii.eqb_eq.
  split; [intros [->|H]; auto | auto].
Qed.

Lemma after_lits_ci t pre :
  after_lits true t pre = Some "" <-> ci_eqb pre t = true.
Proof.
  unfold ci_eqb. rewrite String.eqb_eq.
  revert pre; induction t as [|c t IH]; intros [|d pre]; simpl;
    try (split; (discriminate || reflexivity)).
  destruct (atom_ok true (Lit c) d) eqn:E.
  - apply lit_ci in E. rewrite IH. split.
    + intros ->. rewrite E. reflexivity.
    + intros H. injection H; auto.
  - split; [discriminate|]. intros H. injection H as H _.
    symmetry in H. apply lit_ci in H. congruence.
Qed.

Lemma after_lits_cons ic c t d s :
  after_lits ic (String c t) (String d s) =
  if atom_ok ic (Lit c) d then after_lits ic t s else None.
Proof. reflexivity. Qed.

Lemma after_lits_cat ic t1 t2 s :
  after_lits ic (t1 ++ t2) s =
  match after_lits ic t1 s with
  | Some s1 => after_lits ic t2 s1
  | None => None
  end.
Proof.
  revert s; induction t1 as [|c t1 IH]; intros s; simpl.
  - destruct t2, s; reflexivity.
  - destruct s as [|d s]; [reflexivity|].
    destruct (atom_ok ic (Lit c) d); [apply IH | reflexivity].
Qed.

Lemma web_tail_some len dom x :
  m true len (web_tail dom) x <> None <->
  exists mid d rest,
    x = mid ++ d ++ rest /\ no_LF mid = true /\ ci_eqb d dom = true.
Proof.
  unfold web_tail. rewrite m_star_some. split.
  - intros (mid & r & -> & Hm & Hr). rewrite m_lits in Hr.
    destruct (after_lits true dom r) as [r'|] eqn:E; [|congruence].
    destruct (after_lits_app _ _ _ _ E) as (d & -> & _ & Hd).
    exists mid, d, r'. repeat split; auto. apply after_lits_ci. exact Hd.
  - intros (mid & d & rest & -> & Hm & Hd).
    exists mid, (d ++ rest). repeat split; auto.
    rewrite m_lits. apply after_lits_ci in Hd.
    rewrite (after_lits_intro _ _ _ rest Hd). apply m_star_last.
Qed.

Lemma with_scheme_some q s :
  re_match true (with_scheme q) s <> None <->
  exists sch x,
    s = sch ++ x
    /\ (ci_eqb sch "http://" || ci_eqb sch "https://") = true
    /\ m true (String.length s) q x <> None.
Proof.
  unfold re_match, with_scheme.
  set (len := String.length s).
  assert (Hopt : forall o : option (list string),
             option_map Build_match_obj o <> None <-> o <> None)
    by (intros [r|]; simpl; split; congruence).
  rewrite Hopt. unfold len at 1. rewrite m_bol. fold len.
  rewrite m_lits. split.
  - destruct (after_lits true "http" s) as [s1|] eqn:E1; [|congruence].
    change ([Opt (Lit "s"%char)] ++ lits "://" ++ q)%list
      with (Opt (Lit "s"%char) :: (lits "://" ++ q))%list.
    rewrite m_opt_some, !m_lits.
    intros [(c & s2 & -> & Hc & H)|H].
    + rewrite m_lits in H.
      destruct (after_lits true "://" s2) as [x|] eqn:E2; [|congruence].
      assert (E : after_lits true "https://" s = Some x).
      { change "https://" with ("http" ++ "s://").
        rewrite after_lits_cat, E1. simpl. rewrite Hc. exact E2. }
      destruct (after_lits_app _ _ _ _ E) as (sch & -> & _ & Hs).
      exists sch, x. apply after_lits_ci in Hs. rewrite Hs, orb_true_r. auto.
    + destruct (after_lits true "://" s1) as [x|] eqn:E2; [|congruence].
      assert (E : after_lits true "http://" s = Some x).
      { change "http://" with ("http" ++ "://").
        rewrite after_lits_cat, E1. exact E2. }
      destruct (after_lits_app _ _ _ _ E) as (sch & -> & _ & Hs).
      exists sch, x. apply after_lits_ci in Hs. rewrite Hs. auto.
  - intros (sch & x & Hs & Hsch & Hq).
    change ([Opt (Lit "s"%char)] ++ lits "://" ++ q)%list
      with (Opt (Lit "s"%char) :: (lits "://" ++ q))%list.
    apply orb_true_iff in Hsch as [H|H];
      apply after_lits_ci in H;
      apply (after_lits_intro _ _ _ x) in H; rewrite <- Hs in H.
    + change "http://" with ("http" ++ "://") in H.
      rewrite after_lits_cat in H.
      destruct (after_lits true "http" s) as [s1|]; [|discriminate].
      apply m_opt_some. right. rewrite m_lits, H. exact Hq.
    + change "https://" with ("http" ++ "s://") in H.
      rewrite after_lits_cat in H.
      destruct (after_lits true "http" s) as [s1|]; [|discriminate].
      apply m_opt_some. left.
      destruct s1 as [|c s2]; [discriminate|].
      rewrite after_lits_cons in H.
      destruct (atom_ok true (Lit "s"%char) c) eqn:Ec; [|discriminate].
      exists c, s2. repeat split; auto. rewrite m_lits, H. exact Hq.
Qed.

Lemma app_uri_some s :
  re_match true (Bol :: lits "xhsdiscover://" ++ [Star Dot])%list s <> None
  <-> exists pre rest, s = pre ++ rest /\ ci_eqb pre "xhsdiscover://" = true.
Proof.
  unfold re_match.
  assert (Hopt : forall o : option (list string),
             option_map Build_match_obj o <> None <-> o <> None)
    by (intros [r|]; simpl; split; congruence).
  rewrite Hopt, m_bol, m_lits. split.
  - destruct (after_lits true "xhsdiscover://" s) as [r|] eqn:E;
      [|congruence].
    intros _. destruct (after_lits_app _ _ _ _ E) as (pre & -> & _ & Hp).
    exists pre, r. split; auto. apply after_lits_ci. exact Hp.
  - intros (pre & rest & -> & Hp). apply after_lits_ci in Hp.
    rewrite (after_lits_intro _ _ _ rest Hp). apply m_star_last.
Qed.

Lemma validate_cases s :
  validate_xhs_url s = true <->
  re_match true (Bol :: lits "xhsdiscover://" ++ [Star Dot])%list s <> None
  \/ re_match true (with_scheme (web_tail "xiaohongshu.com")) s <> None
  \/ re_match true (with_scheme (web_tail "xhslink.com")) s <> None.
Proof.
  unfold validate_xhs_url, xhs_patterns. cbn [validate_loop].
  change (Bol :: lits "http" ++ [Opt (Lit "s"%char)] ++ lits "://"
              ++ [Star Dot] ++ lits "xiaohongshu.com" ++ [Star Dot])%list
    with (with_scheme (web_tail "xiaohongshu.com")).
  change (Bol :: lits "http" ++ [Opt (Lit "s"%char)] ++ lits "://"
              ++ [Star Dot] ++ lits "xhslink.com" ++ [Star Dot])%list
    with (with_scheme (web_tail "xhslink.com")).
  destruct (re_match true _ s); [split; [left; discriminate | reflexivity]|].
  destruct (re_match true _ s);
    [split; [right; left; discriminate | reflexivity]|].
  destruct (re_match true _ s);
    [split; [right; right; discriminate | reflexivity]|].
  split; [discriminate|]. intros [H|[H|H]]; congruence.
Qed.

End ValidatorFacts.

Module ValidatorClaims.

Import PyStr Re Vocab ReFacts ValidatorFacts QRScanner.
Local Open Scope string_scope.

(** C10, refuted as stated: this string starts with [https://] and
    contains [xiaohongshu.com] later on, but a line feed stands between
    the two, which [.*] does not cross; the validator rejects it. *)
Lemma validate_rejects_domain_after_line_feed :
  let s := "https://" ++ String LF "xiaohongshu.com" in
  String.prefix "https://" s = true
  /\ contains "xiaohongshu.com" (drop 8 s) = true
  /\ validate_xhs_url s = false.
Proof. repeat split. Qed.

(** C10, amended: [validate_xhs_url] accepts every string that starts
    with [http://] or [https://] and contains [xiaohongshu.com] or
    [xhslink.com] later on with no line feed between the scheme and that
    substring, letter case ignored throughout.  Where the substring sits
    in the URL is not checked: [https://evil.example/xiaohongshu.com] is
    accepted. *)
Theorem validate_accepts_scheme_then_domain (sch mid dom rest : string) :
  (ci_eqb sch "http://" || ci_eqb sch "https://") = true ->
  no_LF mid = true ->
  (ci_eqb dom "xiaohongshu.com" || ci_eqb dom "xhslink.com") = true ->
  validate_xhs_url (sch ++ mid ++ dom ++ rest) = true
  /\ validate_xhs_url "https://evil.example/xiaohongshu.com" = true.
Proof.
  intros Hs Hm Hd. split; [|reflexivity].
  rewrite validate_cases, !with_scheme_some.
  right. apply orb_true_iff in Hd as [Hd|Hd]; [left | right];
    exists sch, (mid ++ dom ++ rest); repeat split; auto;
    apply web_tail_some; exists mid, dom, rest; auto.
Qed.

(** The link to a foreign host that names the domain in its path. *)
Lemma validate_accepts_scheme_then_domain_witness :
  validate_xhs_url
    ("https://" ++ "evil.example/" ++ "xiaohongshu.com" ++ "") = true.
Proof.
  refine (proj1 (validate_accepts_scheme_then_domain
                   "https://" "evil.example/" "xiaohongshu.com" "" _ _ _)).
  - reflexivity.
  - reflexivity.
  - reflexivity.
Defined.

End ValidatorClaims.

(** ** Facts about the monad and about traces *)

Module SysFacts.

Import PyStr Re Sys Vocab.

Lemma bind_val {A B} (c : M A) (k : A -> M B) st a st1 t1 :
  c st = (Val a, st1, t1) ->
  bind c k st =
  match k a st1 with
  | (r, st2, t2) => (r, st2, (t1 ++ t2)%list)
  end.
Proof. intros H. unfold bind. rewrite H. reflexivity. Qed.

Lemma bind_exc {A B} (c : M A) (k : A -> M B) st e st1 t1 :
  c st = (Exc e, st1, t1) ->
  bind c k st = (Exc e, st1, t1).
Proof. intros H. unfold bind. rewrite H. reflexivity. Qed.

Lemma count_app f (t1 t2 : list Event) :
  count f (t1 ++ t2) = (count f t1 + count f t2)%nat.
Proof. unfold count. rewrite filter_app, length_app. reflexivity. Qed.

Lemma processed_app (t1 t2 : list Event) :
  processed (t1 ++ t2) = (processed t1 ++ processed t2)%list.
Proof. apply flat_map_app. Qed.

Lemma dispatched_app (t1 t2 : list Event) :
  dispatched (t1 ++ t2) = (dispatched t1 ++ dispatched t2)%list.
Proof. apply flat_map_app. Qed.

Lemma tapped_app (t1 t2 : list Event) :
  tapped (t1 ++ t2) = (tapped t1 ++ tapped t2)%list.
Proof. apply flat_map_app. Qed.

Lemma summaries_app (t1 t2 : list Event) :
  summaries (t1 ++ t2) = (summaries t1 ++ summaries t2)%list.
Proof. apply flat_map_app. Qed.

Lemma continue_answers_app (t1 t2 : list Event) :
  continue_answers (t1 ++ t2)
  = (continue_answers t1 ++ continue_answers t2)%list.
Proof. apply flat_map_app. Qed.

Lemma count_le_of_imp (f g : Event -> bool) t :
  (forall e, f e = true -> g e = true) -> (count f t <= count g t)%nat.
Proof.
  intros H. unfold count. induction t as [|e t IH]; simpl; [lia|].
  destruct (f e) eqn:Ef.
  - rewrite (H e Ef). simpl. lia.
  - destruct (g e); simpl; lia.
Qed.

Lemma count_dispatch_ok_le t :
  (count is_dispatch_ok t <= count is_dispatch t)%nat.
Proof.
  apply count_le_of_imp. intros [] H; simpl in *; try discriminate.
  apply andb_true_iff in H. tauto.
Qed.

Section Runs.

Variable W : World.

(** *** [XhsUrlProcessor] *)

Lemma xhs_execute_run url st :
  XhsUrlProcessor.execute_adb_command W url st =
  (Val (cmd_ok (subprocess W (n_run st))), bump st,
   [ERun (am_start url) 30 (subprocess W (n_run st))]).
Proof.
  unfold XhsUrlProcessor.execute_adb_command, try_except, bind,
    subprocess_run, cmd_ok, bump, am_start, XhsUrlProcessor.adb_package.
  destruct (subprocess W (n_run st)) as [cp|[]]; simpl; try reflexivity.
  destruct (returncode cp =? 0)%Z; reflexivity.
Qed.

Lemma xhs_click_run x y st :
  XhsUrlProcessor.click_coordinate W x y st =
  (Val (cmd_ok (subprocess W (n_run st))), bump st,
   [ESleep 2; ERun (input_tap (str x) (str y)) 10 (subprocess W (n_run st))]).
Proof.
  unfold XhsUrlProcessor.click_coordinate, try_except, bind,
    subprocess_run, sleep, emit, cmd_ok, bump, input_tap.
  simpl.
  destruct (subprocess W (n_run st)) as [cp|[]]; simpl; try reflexivity.
  destruct (returncode cp =? 0)%Z; reflexivity.
Qed.

Lemma xhs_check_run st :
  XhsUrlProcessor.check_adb_connection W st =
  (Val (devices_ok (subprocess W (n_run st))), bump st,
   [ERun ["adb"; "devices"] 10 (subprocess W (n_run st))]).
Proof.
  unfold XhsUrlProcessor.check_adb_connection, try_except, bind,
    subprocess_run, devices_ok, bump.
  destruct (subprocess W (n_run st)) as [cp|[]]; simpl; try reflexivity.
  destruct (returncode cp =? 0)%Z; simpl; [|reflexivity].
  destruct (XhsUrlProcessor.connected_devices (stdout cp)); reflexivity.
Qed.

Lemma process_single_url_run url st :
  XhsUrlProcessor.process_single_url W url st = single_url_run W url st.
Proof.
  unfold XhsUrlProcessor.process_single_url, single_url_run.
  destruct (XhsUrlProcessor.extract_id_from_url (strip url))
    as [[|c id]|]; try reflexivity.
  cbn [truthy negb].
  unfold bind at 1. cbn [emit].
  rewrite (bind_val _ _ _ _ _ _ (xhs_execute_run _ st)).
  destruct (cmd_ok (subprocess W (n_run st))); [|reflexivity].
  rewrite (bind_val _ _ _ _ _ _ (xhs_click_run _ _ (bump st))).
  destruct (cmd_ok (subprocess W (n_run (bump st)))); reflexivity.
Qed.

End Runs.

End SysFacts.

(** ** Facts about the scan loop *)

Module ScanFacts.

Import PyStr Re Sys Vocab SysFacts.

Section Runs.

Variable W : World.

Lemma qr_execute_run url st :
  QRScanner.execute_adb_command W url st =
  (Val (cmd_ok (subprocess W (n_run st))), bump st,
   [ERun (am_start url) 30 (subprocess W (n_run st))]).
Proof.
  unfold QRScanner.execute_adb_command, try_except, bind,
    subprocess_run, cmd_ok, bump, am_start, QRScanner.adb_package.
  destruct (subprocess W (n_run st)) as [cp|[]]; simpl; try reflexivity.
  destruct (returncode cp =? 0)%Z; reflexivity.
Qed.

Lemma qr_click_run x y st :
  QRScanner.click_coordinate W x y 2 st =
  (Val (cmd_ok (subprocess W (n_run st))), bump st,
   [ESleep 2; ERun (input_tap (str x) (str y)) 10 (subprocess W (n_run st))]).
Proof.
  unfold QRScanner.click_coordinate, try_except, bind,
    subprocess_run, sleep, emit, cmd_ok, bump, input_tap.
  simpl.
  destruct (subprocess W (n_run st)) as [cp|[]]; simpl; try reflexivity.
  destruct (returncode cp =? 0)%Z; reflexivity.
Qed.

Lemma qr_check_run st :
  QRScanner.check_adb_connection W st =
  (Val (devices_ok (subprocess W (n_run st))), bump st,
   [ERun ["adb"; "devices"] 10 (subprocess W (n_run st))]).
Proof.
  unfold QRScanner.check_adb_connection, try_except, bind,
    subprocess_run, devices_ok, bump.
  destruct (subprocess W (n_run st)) as [cp|[]]; simpl; try reflexivity.
  destruct (returncode cp =? 0)%Z; simpl; [|reflexivity].
  change (QRScanner.connected_devices (stdout cp))
    with (XhsUrlProcessor.connected_devices (stdout cp)).
  destruct (XhsUrlProcessor.connected_devices (stdout cp)); reflexivity.
Qed.

(** The square of side 800 is never refused. *)
Lemma crop_800 k cx cy st :
  Image_crop k ((cx - 800 / 2)%Z, (cy - 800 / 2)%Z,
                (cx + 800 / 2)%Z, (cy + 800 / 2)%Z) st
  = (Val {| shot := k;
            box := ((cx - 800 / 2)%Z, (cy - 800 / 2)%Z,
                    (cx + 800 / 2)%Z, (cy + 800 / 2)%Z) |}, st, []).
Proof.
  unfold Image_crop. change (800 / 2)%Z with 400%Z.
  assert ((cx + 400 <? cx - 400)%Z = false) as -> by (apply Z.ltb_ge; lia).
  assert ((cy + 400 <? cy - 400)%Z = false) as -> by (apply Z.ltb_ge; lia).
  replace (cx + 400 - (cx - 400))%Z with 800%Z by lia.
  replace (cy + 400 - (cy - 400))%Z with 800%Z by lia.
  reflexivity.
Qed.

Lemma capture_run st :
  QRScanner.capture_screen_center W 800 st =
  match screen W (n_grab st) with
  | Some sz => (Val (center_image (n_grab st) sz), grabbed st,
                [EGrab (Some sz)])
  | None => (Exc OtherError, grabbed st, [EGrab None])
  end.
Proof.
  unfold QRScanner.capture_screen_center, bind, ImageGrab_grab.
  destruct (screen W (n_grab st)) as [[w h]|]; [|reflexivity].
  rewrite crop_800. reflexivity.
Qed.

Lemma scan_qr_code_run img st :
  QRScanner.scan_qr_code W img st =
  match decode W img with
  | Some l => (Val (hd_error l), st, [EDecode img (Some l)])
  | None => (Exc OtherError, st, [EDecode img None])
  end.
Proof.
  unfold QRScanner.scan_qr_code, bind, pyzbar_decode.
  destruct (decode W img) as [[|q l]|]; reflexivity.
Qed.

Lemma attempt_body_run st :
  QRScanner.attempt_body W st = attempt_run W st.
Proof.
  unfold QRScanner.attempt_body, attempt_run, try_except.
  pose proof (capture_run st) as Hc.
  destruct (screen W (n_grab st)) as [sz|].
  2:{ rewrite (bind_exc _ _ _ _ _ _ Hc). reflexivity. }
  rewrite (bind_val _ _ _ _ _ _ Hc).
  pose proof (scan_qr_code_run (center_image (n_grab st) sz) (grabbed st))
    as Hs.
  destruct (decode W (center_image (n_grab st) sz)) as [l|].
  2:{ rewrite (bind_exc _ _ _ _ _ _ Hs). reflexivity. }
  rewrite (bind_val _ _ _ _ _ _ Hs).
  destruct l as [|[|c q] l]; try reflexivity.
  cbn [hd_error truthy].
  destruct (QRScanner.validate_xhs_url (String c q)); [|reflexivity].
  rewrite (bind_val _ _ _ _ _ _ (qr_execute_run _ _)).
  change (n_run (grabbed st)) with (n_run st).
  destruct (cmd_ok (subprocess W (n_run st))); [|reflexivity].
  rewrite (bind_val _ _ _ _ _ _ (qr_click_run _ _ _)).
  destruct (cmd_ok (subprocess W (n_run (bump (grabbed st)))));
    reflexivity.
Qed.

(** What every pass of the loop satisfies. *)
Lemma attempt_facts st :
  exists r st1 t1,
    attempt_run W st = (Val r, st1, t1)
    /\ count is_grab t1 = 1%nat
    /\ count is_devices t1 = 0%nat
    /\ Forall (eq (str 800, str 2210)) (tapped t1)
    /\ List.length (tapped t1) = count is_dispatch_ok t1
    /\ count is_tap_failed t1 <= count is_dispatch_ok t1
    /\ match r with
       | None => count is_dispatch t1 = 0%nat /\ count is_run t1 = 0%nat
       | Some b =>
           count is_dispatch t1 = 1%nat
           /\ count is_dispatch_ok t1 = (if b then 1 else 0)%nat
       end.
Proof.
  unfold attempt_run.
  destruct (screen W (n_grab st)) as [sz|].
  2:{ do 3 eexists. split; [reflexivity|]. repeat split; constructor. }
  destruct (decode W (center_image (n_grab st) sz)) as [[|[|c q] l]|];
    try (do 3 eexists; split; [reflexivity|]; repeat split; constructor).
  destruct (QRScanner.validate_xhs_url (String c q));
    [|do 3 eexists; split; [reflexivity|]; repeat split; constructor].
  destruct (cmd_ok (subprocess W (n_run st))) eqn:E.
  - do 3 eexists. split; [reflexivity|].
    unfold count, tapped. simpl. rewrite E. simpl.
    repeat split; auto.
    destruct (cmd_ok (subprocess W (S (n_run st)))); simpl; lia.
  - do 3 eexists. split; [reflexivity|].
    unfold count, tapped. simpl. rewrite E. simpl.
    repeat split; auto.
Qed.

(** One pass of the loop, and the rest of it. *)
Lemma attempt_loop_step a rest max_attempts delay st r0 st1 t1 :
  attempt_run W st = (Val r0, st1, t1) ->
  QRScanner.attempt_loop W (a :: rest) max_attempts delay st =
  match r0 with
  | Some b => (Val b, st1, t1)
  | None =>
      if (a <? max_attempts)%Z && (delay <? 0)%Z
      then (Exc ValueError, st1, t1)
      else
        match QRScanner.attempt_loop W rest max_attempts delay st1 with
        | (r, st2, t2) =>
            (r, st2,
             (t1 ++ (if (a <? max_attempts)%Z then [ESleep delay] else [])
                 ++ t2)%list)
        end
  end.
Proof.
  intros E0. rewrite <- attempt_body_run in E0.
  cbn [QRScanner.attempt_loop]. rewrite (bind_val _ _ _ _ _ _ E0).
  destruct r0 as [b|].
  - cbn [ret]. rewrite List.app_nil_r. reflexivity.
  - unfold bind at 1, sleep.
    destruct (a <? max_attempts)%Z; cbn [andb].
    + destruct (delay <? 0)%Z.
      * cbn [raise]. rewrite List.app_nil_r. reflexivity.
      * cbn [emit].
        destruct (QRScanner.attempt_loop W rest max_attempts delay st1)
          as [[r st2] t2]. reflexivity.
    + cbn [ret].
      destruct (QRScanner.attempt_loop W rest max_attempts delay st1)
        as [[r st2] t2]. reflexivity.
Qed.

Lemma tapped_sleep secs t : tapped (ESleep secs :: t) = tapped t.
Proof. reflexivity. Qed.

Lemma count_sleep f secs t :
  f (ESleep secs) = false -> count f (ESleep secs :: t) = count f t.
Proof. intros H. unfold count. simpl. rewrite H. reflexivity. Qed.

(** What every run of the loop satisfies. *)
Lemma attempt_loop_facts attempts max_attempts delay :
  forall st,
  exists r st' t,
    QRScanner.attempt_loop W attempts max_attempts delay st = (r, st', t)
    /\ (count is_grab t <= List.length attempts)%nat
    /\ count is_devices t = 0%nat
    /\ Forall (eq (str 800, str 2210)) (tapped t)
    /\ List.length (tapped t) = count is_dispatch_ok t
    /\ (count is_tap_failed t <= count is_dispatch_ok t)%nat
    /\ (count is_dispatch t <= 1)%nat
    /\ (count is_dispatch_ok t <= 1)%nat
    /\ (r = Val true <-> count is_dispatch_ok t = 1%nat).
Proof.
  induction attempts as [|a rest IH]; intros st.
  - exists (Val false), st, []. split; [reflexivity|].
    unfold count. repeat split; simpl; try lia; try constructor;
      try discriminate.
  - destruct (attempt_facts st)
      as (r0 & st1 & t1 & E0 & Hg & Hd & Ht & Hl & Hf & Hr).
    rewrite (attempt_loop_step _ _ _ _ _ _ _ _ E0).
    destruct r0 as [b|].
    + destruct Hr as [Hr1 Hr2].
      do 3 eexists. split; [reflexivity|].
      rewrite Hg, Hr1. repeat split; auto; try (simpl; lia).
      * rewrite Hr2. destruct b; lia.
      * intros H. injection H as ->. exact Hr2.
      * intros H. rewrite H in Hr2. destruct b; [reflexivity|discriminate].
    + destruct Hr as [Hr Hrun].
      assert (Hok : count is_dispatch_ok t1 = 0%nat)
        by (pose proof (count_dispatch_ok_le t1); lia).
      destruct ((a <? max_attempts)%Z && (delay <? 0)%Z).
      * do 3 eexists. split; [reflexivity|].
        rewrite Hg, Hd, Hr, Hok in *.
        repeat split; auto; try (simpl; lia); discriminate.
      * destruct (IH st1)
          as (r & st' & t & E & Ig & Id & It & Il & If & Ia & Io & Ir).
        rewrite E. do 3 eexists. split; [reflexivity|].
        assert (Hs : forall f, (forall secs, f (ESleep secs) = false) ->
                   count f ((if (a <? max_attempts)%Z
                             then [ESleep delay] else []) ++ t) = count f t).
        { intros f Hf0. destruct (a <? max_attempts)%Z; [|reflexivity].
          apply count_sleep. apply Hf0. }
        assert (Hs' : tapped ((if (a <? max_attempts)%Z
                               then [ESleep delay] else []) ++ t) = tapped t)
          by (destruct (a <? max_attempts)%Z; reflexivity).
        pose proof (Hs is_grab ltac:(reflexivity)) as Sg.
        pose proof (Hs is_devices ltac:(reflexivity)) as Sd.
        pose proof (Hs is_dispatch ltac:(reflexivity)) as Sa.
        pose proof (Hs is_dispatch_ok ltac:(reflexivity)) as So.
        pose proof (Hs is_tap_failed ltac:(reflexivity)) as Sf.
        clear Hs.
        set (tl := ((if (a <? max_attempts)%Z then [ESleep delay] else [])
                    ++ t)%list) in *.
        rewrite !count_app, !tapped_app, List.length_app.
        rewrite Sg, Sd, Sa, So, Sf, Hs'.
        rewrite Hg, Hd, Hr, Hok in *.
        repeat split; auto; try (simpl; lia).
        -- apply Forall_app. split; auto.
        -- apply Ir.
        -- apply Ir.
Qed.

Lemma decoded_first_app (t1 t2 : list Event) :
  decoded_first (t1 ++ t2) = (decoded_first t1 ++ decoded_first t2)%list.
Proof. apply flat_map_app. Qed.

Lemma attempt_from_screen st r st1 t1 :
  attempt_run W st = (r, st1, t1) -> from_screen t1.
Proof.
  unfold attempt_run, from_screen.
  destruct (screen W (n_grab st)) as [sz|].
  2:{ intros H. injection H as <- <- <-. simpl. apply incl_nil_l. }
  destruct (decode W (center_image (n_grab st) sz)) as [[|[|c q] l]|];
    try (intros H; injection H as <- <- <-; simpl; apply incl_nil_l).
  destruct (QRScanner.validate_xhs_url (String c q)) eqn:Ev.
  - destruct (cmd_ok (subprocess W (n_run st)));
      intros H; injection H as <- <- <-;
      unfold dispatched, decoded_first; simpl; rewrite Ev;
      apply incl_refl.
  - intros H. injection H as <- <- <-. simpl. apply incl_nil_l.
Qed.

Lemma attempt_loop_from_screen attempts max_attempts delay :
  forall st r st' t,
    QRScanner.attempt_loop W attempts max_attempts delay st = (r, st', t) ->
    from_screen t.
Proof.
  induction attempts as [|a rest IH]; intros st r st' t H.
  - injection H as <- <- <-. unfold from_screen. simpl. apply incl_nil_l.
  - destruct (attempt_facts st) as (r0 & st1 & t1 & E0 & _).
    pose proof (attempt_from_screen _ _ _ _ E0) as H1.
    rewrite (attempt_loop_step _ _ _ _ _ _ _ _ E0) in H.
    destruct r0 as [b|]; [injection H as <- <- <-; exact H1|].
    destruct ((a <? max_attempts)%Z && (delay <? 0)%Z);
      [injection H as <- <- <-; exact H1|].
    destruct (QRScanner.attempt_loop W rest max_attempts delay st1)
      as [[r2 st2] t2] eqn:E.
    injection H as <- <- <-. pose proof (IH _ _ _ _ E) as H2.
    unfold from_screen in *.
    assert (Hd : dispatched
                   ((if (a <? max_attempts)%Z then [ESleep delay] else [])
                    ++ t2) = dispatched t2)
      by (destruct (a <? max_attempts)%Z; reflexivity).
    assert (Hf : decoded_first
                   ((if (a <? max_attempts)%Z then [ESleep delay] else [])
                    ++ t2) = decoded_first t2)
      by (destruct (a <? max_attempts)%Z; reflexivity).
    rewrite dispatched_app, decoded_first_app, Hd, Hf, filter_app.
    apply incl_app; [apply incl_appl | apply incl_appr]; assumption.
Qed.

(** What every run of [run] satisfies. *)
Lemma run_facts max_attempts delay st :
  exists r st' t,
    QRScanner.run W max_attempts delay st = (r, st', t)
    /\ (count is_grab t <= Z.to_nat max_attempts)%nat
    /\ count is_devices t = 1%nat
    /\ Forall (eq (str 800, str 2210)) (tapped t)
    /\ List.length (tapped t) = count is_dispatch_ok t
    /\ (count is_tap_failed t <= count is_dispatch_ok t)%nat
    /\ (count is_dispatch t <= 1)%nat
    /\ (r = Val true <-> count is_dispatch_ok t = 1%nat)
    /\ from_screen t
    /\ (devices_ok (subprocess W (n_run st)) = false ->
        r = Val false
        /\ t = [ERun ["adb"; "devices"] 10 (subprocess W (n_run st))]).
Proof.
  unfold QRScanner.run.
  rewrite (bind_val _ _ _ _ _ _ (qr_check_run st)).
  set (out := subprocess W (n_run st)).
  destruct (devices_ok out) eqn:Ed; cbn [negb].
  - destruct (attempt_loop_facts (range1 max_attempts) max_attempts delay
                (bump st))
      as (r & st' & t & E & Ig & Id & It & Il & If & Ia & Io & Ir).
    pose proof (attempt_loop_from_screen _ _ _ _ _ _ _ E) as Ifs.
    rewrite E. do 3 eexists. split; [reflexivity|].
    cbn [app].
    assert (Ec : forall f, count f (ERun ["adb"; "devices"] 10 out :: t)
                 = ((if f (ERun ["adb"; "devices"] 10 out) then 1 else 0)
                    + count f t)%nat).
    { intros f. unfold count. simpl.
      destruct (f (ERun ["adb"; "devices"] 10 out)); reflexivity. }
    rewrite !Ec. cbn [is_grab is_devices is_dispatch is_dispatch_ok
                      is_tap_failed starts_with String.eqb Ascii.eqb
                      Bool.eqb andb].
    change (tapped (ERun ["adb"; "devices"] 10 out :: t)) with (tapped t).
    unfold range1 in Ig. rewrite List.length_map, List.length_seq in Ig.
    repeat split; auto; try lia; try apply Ir; try discriminate.
  - do 3 eexists. split; [reflexivity|].
    unfold count, from_screen. simpl.
    repeat split; auto; try lia; try constructor; try discriminate.
    apply incl_nil_l.
Qed.

End Runs.

End ScanFacts.

(** ** Facts about the batch loops *)

Module BatchFacts.

Import PyStr Re Sys Vocab SysFacts.

Section Runs.

Variable W : World.

(** What the processing of one URL always satisfies. *)
Lemma single_url_facts url st :
  exists b st1 t1,
    single_url_run W url st = (Val b, st1, t1)
    /\ processed t1 = [url]
    /\ count is_dispatch_ok t1 = (if b then 1 else 0)%nat
    /\ Forall (eq (str 865, str 2690)) (tapped t1)
    /\ List.length (tapped t1) = count is_dispatch_ok t1
    /\ count (is_sleep 1) t1 = 0%nat
    /\ continue_answers t1 = []
    /\ summaries t1 = []
    /\ stdin st1 = stdin st
    /\ (count is_dispatch t1 <= 1)%nat.
Proof.
  unfold single_url_run.
  destruct (XhsUrlProcessor.extract_id_from_url (strip url))
    as [[|c id]|];
    try (do 3 eexists; split; [reflexivity|]; repeat split;
         try (unfold count; simpl; lia); constructor).
  destruct (cmd_ok (subprocess W (n_run st))) eqn:E.
  - do 3 eexists. split; [reflexivity|].
    unfold count, tapped. simpl. rewrite E. simpl.
    repeat split; auto.
  - do 3 eexists. split; [reflexivity|].
    unfold count, tapped. simpl. rewrite E. simpl.
    repeat split; auto.
Qed.

(** One pass of the loop over a file's URLs, and the rest of it. *)
Lemma file_loop_step url rest i n c st b st1 t1 :
  single_url_run W url st = (Val b, st1, t1) ->
  XhsUrlProcessor.file_loop W (url :: rest) i n c st =
  match XhsUrlProcessor.file_loop W rest (i + 1)%Z n (tally b c) st1 with
  | (r, st2, t2) =>
      (r, st2, (t1 ++ (if (i <? n)%Z then [ESleep 1] else []) ++ t2)%list)
  end.
Proof.
  intros E0. rewrite <- process_single_url_run in E0.
  cbn [XhsUrlProcessor.file_loop]. rewrite (bind_val _ _ _ _ _ _ E0).
  unfold bind at 1, sleep, tally. cbn [Z.ltb Z.compare].
  destruct (i <? n)%Z.
  - cbn [emit].
    destruct (XhsUrlProcessor.file_loop W rest (i + 1)%Z n _ st1)
      as [[r st2] t2]. reflexivity.
  - cbn [ret].
    destruct (XhsUrlProcessor.file_loop W rest (i + 1)%Z n _ st1)
      as [[r st2] t2]. reflexivity.
Qed.

(** One pass of the interactive loop, and the rest of it. *)
Lemma input_loop_step url rest i n c st b st1 t1 :
  single_url_run W url st = (Val b, st1, t1) ->
  XhsUrlProcessor.input_loop W (url :: rest) i n c st =
  if (i <? n)%Z then
    match stdin st1 with
    | [] => (Exc EOFError, st1, (t1 ++ [EInput AskContinue None])%list)
    | CtrlC :: keys =>
        (Val (tally b c), with_stdin st1 keys,
         (t1 ++ [EInput AskContinue (Some CtrlC)])%list)
    | Typed l :: keys =>
        if String.eqb (lower (strip l)) "q" then
          (Val (tally b c), with_stdin st1 keys,
           (t1 ++ [EInput AskContinue (Some (Typed l))])%list)
        else
          match XhsUrlProcessor.input_loop W rest (i + 1)%Z n (tally b c)
                  (with_stdin st1 keys) with
          | (r, st2, t2) =>
              (r, st2,
               (t1 ++ EInput AskContinue (Some (Typed l)) :: t2)%list)
          end
    end
  else
    match XhsUrlProcessor.input_loop W rest (i + 1)%Z n (tally b c) st1 with
    | (r, st2, t2) => (r, st2, (t1 ++ t2)%list)
    end.
Proof.
  intros E0. rewrite <- process_single_url_run in E0.
  cbn [XhsUrlProcessor.input_loop]. rewrite (bind_val _ _ _ _ _ _ E0).
  unfold tally. destruct (i <? n)%Z.
  - unfold bind at 1, try_except, bind at 1, input, with_stdin.
    destruct (stdin st1) as [|[l|] keys]; try reflexivity.
    destruct (String.eqb (lower (strip l)) "q"); cbn [ret app].
    + reflexivity.
    + destruct (XhsUrlProcessor.input_loop W rest (i + 1)%Z n _ _)
        as [[r st2] t2]. reflexivity.
  - destruct (XhsUrlProcessor.input_loop W rest (i + 1)%Z n _ st1)
      as [[r st2] t2]. reflexivity.
Qed.

Lemma tally_count (b : bool) (c : Z) (k : list Event) :
  count is_dispatch_ok k = (if b then 1 else 0)%nat ->
  tally b c = (c + Z.of_nat (count is_dispatch_ok k))%Z.
Proof. intros ->. unfold tally. destruct b; simpl; lia. Qed.

(** What the loop over a file's URLs satisfies. *)
Lemma file_loop_facts urls :
  forall i n c st,
  exists c' st' t,
    XhsUrlProcessor.file_loop W urls i n c st = (Val c', st', t)
    /\ processed t = urls
    /\ c' = (c + Z.of_nat (count is_dispatch_ok t))%Z
    /\ Forall (eq (str 865, str 2690)) (tapped t)
    /\ List.length (tapped t) = count is_dispatch_ok t
    /\ summaries t = []
    /\ continue_answers t = []
    /\ ((i + Zlen urls = n + 1)%Z ->
        count (is_sleep 1) t = pred (List.length urls)).
Proof.
  induction urls as [|url rest IH]; intros i n c st.
  - exists c, st, []. split; [reflexivity|].
    unfold count. repeat split; simpl; try lia; constructor.
  - destruct (single_url_facts url st)
      as (b & st1 & t1 & E0 & Hp & Ho & Ht & Hl & Hs & Ha & Hm & _).
    rewrite (file_loop_step _ _ _ _ _ _ _ _ _ E0).
    destruct (IH (i + 1)%Z n (tally b c) st1)
      as (c' & st' & t & E & Ip & Ic & It & Il & Im & Ia & Is).
    rewrite E. do 3 eexists. split; [reflexivity|].
    set (sl := if (i <? n)%Z then [ESleep 1] else []).
    assert (Sp : processed (sl ++ t) = processed t)
      by (unfold sl; destruct (i <? n)%Z; reflexivity).
    assert (So : count is_dispatch_ok (sl ++ t) = count is_dispatch_ok t)
      by (unfold sl; destruct (i <? n)%Z; reflexivity).
    assert (St : tapped (sl ++ t) = tapped t)
      by (unfold sl; destruct (i <? n)%Z; reflexivity).
    assert (Sm : summaries (sl ++ t) = summaries t)
      by (unfold sl; destruct (i <? n)%Z; reflexivity).
    assert (Sa : continue_answers (sl ++ t) = continue_answers t)
      by (unfold sl; destruct (i <? n)%Z; reflexivity).
    assert (Ss : count (is_sleep 1) (sl ++ t)
                 = ((if (i <? n)%Z then 1 else 0) + count (is_sleep 1) t)%nat)
      by (unfold sl; destruct (i <? n)%Z; reflexivity).
    set (tl := (sl ++ t)%list) in *.
    rewrite processed_app, !count_app, tapped_app, summaries_app,
      continue_answers_app, List.length_app.
    rewrite Sp, So, St, Sm, Sa, Ss, Hp, Ip, Hm, Im, Ha, Ia, Hs, Hl, Il.
    repeat split; auto.
    + rewrite Ic, (tally_count b c t1 Ho). lia.
    + apply Forall_app. split; auto.
    + intros Hn. unfold Zlen in *. simpl List.length in *.
      destruct (i <? n)%Z eqn:Ei.
      * apply Z.ltb_lt in Ei. rewrite Is by lia.
        destruct rest; simpl in *; lia.
      * apply Z.ltb_ge in Ei. destruct rest; simpl in *; [|lia].
        rewrite Is by (simpl; lia). reflexivity.
Qed.

Lemma firstn_S_cons {A} (x : A) l k : firstn (S k) (x :: l) = x :: firstn k l.
Proof. reflexivity. Qed.

(** What the interactive loop satisfies. *)
Lemma input_loop_facts urls :
  forall i n c st,
  (i + Zlen urls = n + 1)%Z ->
  exists r st' t,
    XhsUrlProcessor.input_loop W urls i n c st = (r, st', t)
    /\ processed t
       = firstn (S (List.length (filter goes_on (continue_answers t)))) urls
    /\ (forallb goes_on (continue_answers t) = true -> processed t = urls)
    /\ ((r = Val (c + Z.of_nat (count is_dispatch_ok t))%Z
         /\ ~ In None (continue_answers t))
        \/ (r = Exc EOFError /\ In None (continue_answers t)))
    /\ Forall (eq (str 865, str 2690)) (tapped t)
    /\ List.length (tapped t) = count is_dispatch_ok t
    /\ summaries t = []
    /\ count (is_sleep 1) t = 0%nat.
Proof.
  induction urls as [|url rest IH]; intros i n c st Hn.
  - exists (Val c), st, []. split; [reflexivity|].
    unfold count. repeat split; simpl; auto.
    left. split; [f_equal; lia | tauto].
  - destruct (single_url_facts url st)
      as (b & st1 & t1 & E0 & Hp & Ho & Ht & Hl & Hs & Ha & Hm & _).
    rewrite (input_loop_step _ _ _ _ _ _ _ _ _ E0).
    pose proof (tally_count b c t1 Ho) as Hc.
    assert (Hn' : (i + 1 + Zlen rest = n + 1)%Z)
      by (unfold Zlen in *; simpl List.length in Hn; lia).
    assert (stop : forall k,
      goes_on k = false ->
      let t := (t1 ++ [EInput AskContinue k])%list in
      let r := match k with
               | None => Exc EOFError
               | Some _ => Val (tally b c)
               end in
      processed t
      = firstn (S (List.length (filter goes_on (continue_answers t))))
               (url :: rest)
      /\ (forallb goes_on (continue_answers t) = true ->
          processed t = url :: rest)
      /\ ((r = Val (c + Z.of_nat (count is_dispatch_ok t))%Z
           /\ ~ In None (continue_answers t))
          \/ (r = Exc EOFError /\ In None (continue_answers t)))
      /\ Forall (eq (str 865, str 2690)) (tapped t)
      /\ List.length (tapped t) = count is_dispatch_ok t
      /\ summaries t = []
      /\ count (is_sleep 1) t = 0%nat).
    { intros k Hk t r. subst t r.
      assert (Ek : continue_answers (t1 ++ [EInput AskContinue k]) = [k])
        by (rewrite continue_answers_app, Ha; reflexivity).
      assert (Et : tapped (t1 ++ [EInput AskContinue k]) = tapped t1)
        by (rewrite tapped_app; simpl; apply List.app_nil_r).
      assert (Eo : count is_dispatch_ok (t1 ++ [EInput AskContinue k])
                   = count is_dispatch_ok t1)
        by (rewrite count_app; unfold count; simpl; lia).
      rewrite Ek, Et, Eo, processed_app, summaries_app, count_app, Hp, Hm,
        Hs. simpl. rewrite Hk. simpl.
      repeat split; auto.
      - discriminate.
      - destruct k.
        + left. rewrite Hc. split; [reflexivity|].
          intros [H|[]]. discriminate.
        + right. split; [reflexivity | left; reflexivity]. }
    destruct (i <? n)%Z eqn:Ei.
    + destruct (stdin st1) as [|[l|] keys].
      * do 3 eexists. split; [reflexivity|].
        exact (stop None eq_refl).
      * destruct (String.eqb (lower (strip l)) "q") eqn:Eq.
        -- do 3 eexists. split; [reflexivity|].
           apply (stop (Some (Typed l))). simpl. rewrite Eq. reflexivity.
        -- destruct (IH (i + 1)%Z n (tally b c) (with_stdin st1 keys) Hn')
             as (r & st' & t & E & Ip & Iall & Ir & It & Il & Im & Is).
           rewrite E. do 3 eexists. split; [reflexivity|].
           assert (Ek : continue_answers
                          (t1 ++ EInput AskContinue (Some (Typed l)) :: t)
                        = Some (Typed l) :: continue_answers t)
             by (rewrite continue_answers_app, Ha; reflexivity).
           assert (Eg : goes_on (Some (Typed l)) = true)
             by (simpl; rewrite Eq; reflexivity).
           rewrite Ek, processed_app, tapped_app, summaries_app, !count_app,
             List.length_app, Hp, Hm, Hs.
           change (processed (EInput AskContinue (Some (Typed l)) :: t))
             with (processed t).
           change (tapped (EInput AskContinue (Some (Typed l)) :: t))
             with (tapped t).
           change (summaries (EInput AskContinue (Some (Typed l)) :: t))
             with (summaries t).
           change (count is_dispatch_ok
                     (EInput AskContinue (Some (Typed l)) :: t))
             with (count is_dispatch_ok t).
           change (count (is_sleep 1)
                     (EInput AskContinue (Some (Typed l)) :: t))
             with (count (is_sleep 1) t).
           cbn [filter forallb]. rewrite Eg. cbn [List.length andb].
           rewrite firstn_S_cons, <- Ip, Hl, Il, Im, Is.
           repeat split; auto.
           ++ intros Hall. rewrite (Iall Hall). reflexivity.
           ++ destruct Ir as [[-> Hno]|[-> Hin]].
              ** left. split; [f_equal; rewrite Hc; lia|].
                 intros [H|H]; [discriminate | exact (Hno H)].
              ** right. split; [reflexivity | right; exact Hin].
           ++ apply Forall_app. split; auto.
      * do 3 eexists. split; [reflexivity|].
        exact (stop (Some CtrlC) eq_refl).
    + apply Z.ltb_ge in Ei.
      assert (rest = []).
      { destruct rest; [reflexivity|].
        unfold Zlen in Hn. simpl List.length in Hn. lia. }
      subst rest. cbn [XhsUrlProcessor.input_loop ret].
      do 3 eexists. split; [reflexivity|].
      rewrite List.app_nil_r, Ha, Hp, Hm, Hs, Hl. simpl.
      repeat split; auto. left. rewrite Hc. split; [reflexivity | tauto].
Qed.

(** The collection of the links reads the terminal and nothing else. *)
Lemma collect_urls_quiet keys :
  forall urls r keys' t,
    XhsUrlProcessor.collect_urls keys urls = (r, keys', t) ->
    processed t = [] /\ tapped t = [] /\ summaries t = []
    /\ continue_answers t = [] /\ forall f,
         (forall p k, f (EInput p k) = false) -> count f t = 0%nat.
Proof.
  induction keys as [|[l|] keys IH]; intros urls r keys' t H; simpl in H.
  - injection H as <- <- <-. repeat split; auto.
    intros f Hf. unfold count. simpl. rewrite Hf. reflexivity.
  - destruct (String.eqb (strip l) "").
    + injection H as <- <- <-. repeat split; auto.
      intros f Hf. unfold count. simpl. rewrite Hf. reflexivity.
    + destruct (XhsUrlProcessor.collect_urls keys (urls ++ [strip l]))
        as [[r0 k0] t0] eqn:E.
      injection H as <- <- <-.
      destruct (IH _ _ _ _ E) as (Hp & Ht & Hm & Ha & Hc).
      repeat split; auto.
      intros f Hf. unfold count in *. simpl. rewrite Hf. apply Hc, Hf.
  - injection H as <- <- <-. repeat split; auto.
    intros f Hf. unfold count. simpl. rewrite Hf. reflexivity.
Qed.

Lemma count_cons_false f (e : Event) t :
  f e = false -> count f (e :: t) = count f t.
Proof. intros H. unfold count. simpl. rewrite H. reflexivity. Qed.

(** What a batch read from a file satisfies. *)
Lemma file_batch_facts path st :
  exists st' t,
    XhsUrlProcessor.process_urls_from_file W path st = (Val tt, st', t)
    /\ Forall (eq (str 865, str 2690)) (tapped t)
    /\ List.length (tapped t) = count is_dispatch_ok t
    /\ forall ls,
         files W path = Lines ls ->
         devices_ok (subprocess W (n_run st)) = true ->
         processed t = file_urls ls
         /\ (file_urls ls <> [] ->
             summaries t
             = [(Z.of_nat (count is_dispatch_ok t), Zlen (file_urls ls))])
         /\ count (is_sleep 1) t = pred (List.length (file_urls ls)).
Proof.
  unfold XhsUrlProcessor.process_urls_from_file, try_except.
  unfold bind at 1, read_lines.
  destruct (files W path) as [ls| |];
    try (do 2 eexists; split; [reflexivity|];
         split; [constructor|]; split; [reflexivity|];
         intros ls' Hls; discriminate).
  fold (file_urls ls).
  destruct (file_urls ls) as [|u us] eqn:Eu.
  { do 2 eexists. split; [reflexivity|].
    split; [constructor|]. split; [reflexivity|].
    intros ls' Hls _. injection Hls as <-.
    rewrite Eu. split; [reflexivity|]. split; [congruence | reflexivity]. }
  rewrite (bind_val _ _ _ _ _ _ (xhs_check_run W st)).
  destruct (devices_ok (subprocess W (n_run st))) eqn:Ed.
  2:{ do 2 eexists. split; [reflexivity|].
      split; [constructor|]. split; [reflexivity|].
      intros ls' _ Hd. discriminate. }
  cbn [negb].
  destruct (file_loop_facts (u :: us) 1 (Zlen (u :: us)) 0 (bump st))
    as (c' & st' & t & E & Ip & Ic & It & Il & Im & Ia & Is).
  rewrite (bind_val _ _ _ _ _ _ E). cbn [emit].
  do 2 eexists. split; [reflexivity|].
  set (out := subprocess W (n_run st)) in *.
  set (sm := ESummary c' (Zlen (u :: us))).
  cbn [app].
  assert (Et : tapped (EOpen path :: ERun ["adb"; "devices"] 10 out
                         :: t ++ [sm]) = tapped t).
  { change (tapped (EOpen path :: ERun ["adb"; "devices"] 10 out
                      :: t ++ [sm])) with (tapped (t ++ [sm])).
    rewrite tapped_app. apply List.app_nil_r. }
  assert (Ec : forall f,
             f (EOpen path) = false ->
             f (ERun ["adb"; "devices"] 10 out) = false ->
             f sm = false ->
             count f (EOpen path :: ERun ["adb"; "devices"] 10 out
                        :: t ++ [sm]) = count f t).
  { intros f H1 H2 H3. rewrite !count_cons_false, count_app by assumption.
    unfold count at 2. simpl. rewrite H3. simpl. lia. }
  rewrite Et, !Ec by reflexivity.
  split; [exact It|]. split; [exact Il|].
  intros ls' Hls _. injection Hls as <-. rewrite Eu.
  split; [|split].
  - change (processed (EOpen path :: ERun ["adb"; "devices"] 10 out
                         :: t ++ [sm])) with (processed (t ++ [sm])).
    rewrite processed_app, Ip. apply List.app_nil_r.
  - intros _.
    change (summaries (EOpen path :: ERun ["adb"; "devices"] 10 out
                         :: t ++ [sm])) with (summaries (t ++ [sm])).
    rewrite summaries_app, Im. unfold sm. simpl. rewrite Ic.
    reflexivity.
  - apply Is. lia.
Qed.

(** What an interactive batch satisfies. *)
Lemma input_batch_facts st :
  exists r st' t,
    XhsUrlProcessor.process_urls_from_input W st = (r, st', t)
    /\ Forall (eq (str 865, str 2690)) (tapped t)
    /\ List.length (tapped t) = count is_dispatch_ok t
    /\ count (is_sleep 1) t = 0%nat
    /\ forall urls keys t0,
         devices_ok (subprocess W (n_run st)) = true ->
         XhsUrlProcessor.collect_urls (stdin st) []
         = (XhsUrlProcessor.Break urls, keys, t0) ->
         processed t
         = firstn (S (List.length (filter goes_on (continue_answers t))))
                  urls
         /\ (forallb goes_on (continue_answers t) = true ->
             processed t = urls)
         /\ (In None (continue_answers t) -> r = Exc EOFError)
         /\ (~ In None (continue_answers t) ->
             r = Val tt
             /\ (urls <> [] ->
                 summaries t
                 = [(Z.of_nat (count is_dispatch_ok t), Zlen urls)])).
Proof.
  unfold XhsUrlProcessor.process_urls_from_input.
  rewrite (bind_val _ _ _ _ _ _ (xhs_check_run W st)).
  set (out := subprocess W (n_run st)) in *.
  destruct (devices_ok out) eqn:Ed.
  2:{ do 3 eexists. split; [reflexivity|].
      split; [constructor|]. split; [reflexivity|]. split; [reflexivity|].
      intros urls keys t0 Hd. discriminate. }
  cbn [negb]. unfold bind at 1, XhsUrlProcessor.read_urls.
  change (stdin (bump st)) with (stdin st).
  destruct (XhsUrlProcessor.collect_urls (stdin st) [])
    as [[r0 keys0] t0] eqn:Ecol.
  destruct (collect_urls_quiet _ _ _ _ _ Ecol) as (Qp & Qt & Qm & Qa & Qc).
  assert (Q0 : forall f, f (ERun ["adb"; "devices"] 10 out) = false ->
                         (forall p k, f (EInput p k) = false) ->
                         forall t, count f ([ERun ["adb"; "devices"] 10 out]
                                            ++ t0 ++ t) = count f t).
  { intros f H1 H2 t. cbn [app]. rewrite count_cons_false, count_app by auto.
    rewrite (Qc f H2). reflexivity. }
  assert (Q1 : forall t, tapped ([ERun ["adb"; "devices"] 10 out] ++ t0 ++ t)
                         = tapped t)
    by (intros t; cbn [app];
        change (tapped (ERun ["adb"; "devices"] 10 out :: t0 ++ t))
          with (tapped (t0 ++ t)); rewrite tapped_app, Qt; reflexivity).
  assert (Q2 : forall t, processed ([ERun ["adb"; "devices"] 10 out]
                                    ++ t0 ++ t) = processed t)
    by (intros t; cbn [app];
        change (processed (ERun ["adb"; "devices"] 10 out :: t0 ++ t))
          with (processed (t0 ++ t)); rewrite processed_app, Qp;
        reflexivity).
  assert (Q3 : forall t, summaries ([ERun ["adb"; "devices"] 10 out]
                                    ++ t0 ++ t) = summaries t)
    by (intros t; cbn [app];
        change (summaries (ERun ["adb"; "devices"] 10 out :: t0 ++ t))
          with (summaries (t0 ++ t)); rewrite summaries_app, Qm;
        reflexivity).
  assert (Q4 : forall t, continue_answers ([ERun ["adb"; "devices"] 10 out]
                                           ++ t0 ++ t) = continue_answers t)
    by (intros t; cbn [app];
        change (continue_answers (ERun ["adb"; "devices"] 10 out :: t0 ++ t))
          with (continue_answers (t0 ++ t));
        rewrite continue_answers_app, Qa; reflexivity).
  destruct r0 as [[|u us]|].
  - cbn [ret]. do 3 eexists. split; [reflexivity|].
    rewrite Q1, !Q0, Q2, Q3, Q4 by reflexivity.
    split; [constructor|]. split; [reflexivity|]. split; [reflexivity|].
    intros urls keys t1 _ Hc. injection Hc as <- _ _.
    split; [reflexivity|]. split; [reflexivity|].
    split; [intros []|]. intros _. split; [reflexivity | congruence].
  - destruct (input_loop_facts (u :: us) 1 (Zlen (u :: us)) 0
                (with_stdin (bump st) keys0) ltac:(lia))
      as (r & st' & t & E & Ip & Iall & Ir & It & Il & Im & Is).
    change {| n_run := n_run (bump st); n_grab := n_grab (bump st);
              stdin := keys0 |} with (with_stdin (bump st) keys0).
    destruct Ir as [[-> Hno]|[-> Hin]].
    + rewrite (bind_val _ _ _ _ _ _ E). cbn [emit].
      do 3 eexists. split; [reflexivity|].
      set (sm := ESummary _ _).
      assert (T1 : tapped (t ++ [sm]) = tapped t)
        by (rewrite tapped_app; apply List.app_nil_r).
      assert (T2 : processed (t ++ [sm]) = processed t)
        by (rewrite processed_app; apply List.app_nil_r).
      assert (T3 : continue_answers (t ++ [sm]) = continue_answers t)
        by (rewrite continue_answers_app; apply List.app_nil_r).
      assert (T4 : forall f, f sm = false ->
                   count f (t ++ [sm]) = count f t).
      { intros f Hf. rewrite count_app. unfold count at 2. simpl.
        rewrite Hf. simpl. lia. }
      rewrite Q1, !Q0, Q2, Q3, Q4, T1, T2, T3, !T4 by reflexivity.
      split; [exact It|]. split; [exact Il|]. split; [exact Is|].
      intros urls keys t1 _ Hc. injection Hc as <- _ _.
      split; [exact Ip|]. split; [exact Iall|].
      split; [intros Hin; contradiction|].
      intros _. split; [reflexivity|]. intros _.
      rewrite summaries_app, Im. unfold sm. reflexivity.
    + rewrite (bind_exc _ _ _ _ _ _ E).
      do 3 eexists. split; [reflexivity|].
      rewrite Q1, !Q0, Q2, Q3, Q4 by reflexivity.
      split; [exact It|]. split; [exact Il|]. split; [exact Is|].
      intros urls keys t1 _ Hc. injection Hc as <- _ _.
      split; [exact Ip|]. split; [exact Iall|].
      split; [reflexivity|]. intros Hn. contradiction.
  - cbn [ret]. do 3 eexists. split; [reflexivity|].
    rewrite Q1, !Q0 by reflexivity.
    split; [constructor|]. split; [reflexivity|]. split; [reflexivity|].
    intros urls keys t1 _ Hc. discriminate.
Qed.

End Runs.

End BatchFacts.

(** ** The scan mode *)

Module ScanClaims.

Import PyStr Re Sys Vocab Scenarios SysFacts ScanFacts.




(** C5: a run of [run] grabs the screen, once per pass, at most
    [max_attempts] times (never, when [max_attempts] is not positive);
    it issues [adb devices] exactly once; and when that check finds no
    connected device the run returns [False] having done nothing else:
    no screenshot, no dispatch. *)
Theorem run_attempts_bounded_and_checked_once
  (W : World) (max_attempts delay : Z) (st : St) :
  let this := QRScanner.run W max_attempts delay st in
  (count is_grab (trace_of this) <= Z.to_nat max_attempts)%nat
  /\ count is_devices (trace_of this) = 1%nat
  /\ (devices_ok (subprocess W (n_run st)) = false ->
      result_of this = Val false
      /\ trace_of this
         = [ERun ["adb"; "devices"] 10 (subprocess W (n_run st))]
      /\ count is_grab (trace_of this) = 0%nat
      /\ count is_dispatch (trace_of this) = 0%nat).
Proof.
  intros this.
  destruct (run_facts W max_attempts delay st)
    as (r & st' & t & E & Hg & Hd & _ & _ & _ & _ & _ & _ & H0).
  unfold this. rewrite E. cbn [trace_of result_of fst snd].
  split; [exact Hg|]. split; [exact Hd|].
  intros Hno. destruct (H0 Hno) as [-> ->]. repeat split.
Qed.

(** With no device attached, nothing is attempted. *)
Lemma run_attempts_bounded_and_checked_once_witness :
  trace_of (QRScanner.run (world [no_device] [web_url] []) 10 3 (start []))
  = [ERun ["adb"; "devices"] 10 no_device].
Proof.
  refine (proj1 (proj2 (proj2 (proj2
    (run_attempts_bounded_and_checked_once
       (world [no_device] [web_url] []) 10 3 (start []))) _))).
  reflexivity.
Defined.

End ScanClaims.

(** ** Dispatch, tap and the batch loops *)

Module FlowClaims.

Import PyStr Re Sys Vocab Scenarios SysFacts ScanFacts BatchFacts.

(** C6: a successful dispatch decides the outcome, whatever the tap
    does.  A scan run whose trace holds a successful dispatch and a
    failed tap returns [True]; the processing of a URL whose trace holds
    a successful dispatch and a failed tap returns [True]; and the
    summary of a file batch counts exactly the successful dispatches, so
    such an item is reported as a success. *)
Theorem tap_failure_keeps_success
  (W : World) (max_attempts delay : Z) (st : St)
  (url : string) (st1 : St) (path : string) (st2 : St) :
  let scan := QRScanner.run W max_attempts delay st in
  let item := XhsUrlProcessor.process_single_url W url st1 in
  let batch := XhsUrlProcessor.process_urls_from_file W path st2 in
  ((0 < count is_dispatch_ok (trace_of scan))%nat ->
   (0 < count is_tap_failed (trace_of scan))%nat ->
   result_of scan = Val true)
  /\ ((0 < count is_dispatch_ok (trace_of item))%nat ->
      (0 < count is_tap_failed (trace_of item))%nat ->
      result_of item = Val true)
  /\ (forall ls,
        files W path = Lines ls ->
        devices_ok (subprocess W (n_run st2)) = true ->
        file_urls ls <> [] ->
        summaries (trace_of batch)
        = [(Z.of_nat (count is_dispatch_ok (trace_of batch)),
            Zlen (file_urls ls))]).
Proof.
  intros scan item batch. split; [|split].
  - destruct (run_facts W max_attempts delay st)
      as (r & st' & t & E & _ & _ & _ & _ & _ & Ho & Hr & _).
    pose proof (count_dispatch_ok_le t) as Hle.
    unfold scan. rewrite E. cbn [trace_of result_of fst snd].
    intros H1 _. apply Hr. lia.
  - unfold item. rewrite process_single_url_run.
    destruct (single_url_facts W url st1)
      as (b & st' & t & E & _ & Ho & _).
    rewrite E. cbn [trace_of result_of fst snd].
    intros H1 _. rewrite Ho in H1. destruct b; [reflexivity | lia].
  - intros ls Hls Hd Hne.
    destruct (file_batch_facts W path st2) as (st' & t & E & _ & _ & H).
    unfold batch. rewrite E. cbn [trace_of snd].
    destruct (H ls Hls Hd) as (_ & Hs & _). exact (Hs Hne).
Qed.

(** The dispatch succeeds and the tap times out: the scan run returns
    [True], and so does the processing of a URL. *)
Lemma tap_failure_keeps_success_witness :
  result_of
    (QRScanner.run (world [one_device; exit0; Failed TimedOut] [web_url] [])
       10 3 (start []))
  = Val true
  /\ result_of
       (XhsUrlProcessor.process_single_url
          (world [one_device; exit0; Failed TimedOut] [web_url] [])
          web_url (bump (start [])))
     = Val true.
Proof.
  pose proof (tap_failure_keeps_success
                (world [one_device; exit0; Failed TimedOut] [web_url] [])
                10 3 (start []) web_url
                (bump (start [])) "urls.txt" (start [])) as H.
  split.
  - apply (proj1 H); vm_compute; lia.
  - apply (proj1 (proj2 H)); vm_compute; lia.
Defined.

(** C7, refuted as stated: in this batch of two URLs the first dispatch
    finds no [adb] executable; the run is not aborted: the second URL is
    dispatched and tapped, and the batch ends with its summary, one
    success out of two. *)
Lemma missing_adb_does_not_abort_the_batch :
  let W := world [one_device; Failed NoExecutable; exit0; exit0] []
                 [web_url; other_url] in
  XhsUrlProcessor.process_urls_from_file W "urls.txt" (start [])
  = (Val tt,
     {| n_run := 4; n_grab := 0; stdin := [] |},
     [EOpen "urls.txt";
      ERun ["adb"; "devices"] 10 one_device;
      EProcessing web_url;
      ERun (am_start
              "xhsdiscover://item/652b91f0000000001f03b570?source=pcweb_access_limit")
           30 (Failed NoExecutable);
      ESleep 1;
      EProcessing other_url;
      ERun (am_start
              "xhsdiscover://item/0123456789abcdef01234567?source=pcweb_access_limit")
           30 exit0;
      ESleep 2;
      ERun (input_tap "865" "2690") 10 exit0;
      ESummary 1 2]).
Proof. reflexivity. Qed.

(** C7, amended: a missing [adb] executable during a dispatch is caught
    inside [execute_adb_command], which returns [False] as for any other
    failed dispatch (in both programs); the URL is then a failed item:
    the batch loop does not count it, and goes on with the URLs that
    are left. *)
Theorem missing_adb_is_an_ordinary_dispatch_failure
  (W : World) (st : St) (url : string) :
  subprocess W (n_run st) = Failed NoExecutable ->
  XhsUrlProcessor.execute_adb_command W url st
  = (Val false, bump st, [ERun (am_start url) 30 (Failed NoExecutable)])
  /\ QRScanner.execute_adb_command W url st
     = (Val false, bump st, [ERun (am_start url) 30 (Failed NoExecutable)])
  /\ (forall c id rest i n success_count,
        XhsUrlProcessor.extract_id_from_url (strip url)
        = Some (String c id) ->
        XhsUrlProcessor.file_loop W (url :: rest) i n success_count st
        = match XhsUrlProcessor.file_loop W rest (i + 1)%Z n success_count
                  (bump st) with
          | (r, st', t) =>
              (r, st',
               ([EProcessing url;
                 ERun (am_start
                         (XhsUrlProcessor.convert_to_app_url (String c id)))
                      30 (Failed NoExecutable)]
                ++ (if (i <? n)%Z then [ESleep 1] else []) ++ t)%list)
          end).
Proof.
  intros Hno. split; [|split].
  - rewrite xhs_execute_run, Hno. reflexivity.
  - rewrite qr_execute_run, Hno. reflexivity.
  - intros c id rest i n success_count Hid.
    apply (file_loop_step W url rest i n success_count st false).
    unfold single_url_run. rewrite Hid, Hno. reflexivity.
Qed.

(** With no [adb] on the PATH the dispatch is a plain [False]. *)
Lemma missing_adb_is_an_ordinary_dispatch_failure_witness :
  XhsUrlProcessor.execute_adb_command
    (world [Failed NoExecutable] [] []) web_url (start [])
  = (Val false, bump (start []),
     [ERun (am_start web_url) 30 (Failed NoExecutable)]).
Proof.
  refine (proj1
    (missing_adb_is_an_ordinary_dispatch_failure
       (world [Failed NoExecutable] [] []) (start []) web_url _)).
  reflexivity.
Defined.



(** C9: every tap of a scan run is [adb shell input tap 800 2210], every
    tap of a URL batch, from a file or interactive, is
    [adb shell input tap 865 2690], whatever the world, the payloads and
    the state; and there is one tap for each successful dispatch. *)
Theorem tap_coordinates_are_fixed
  (W : World) (max_attempts delay : Z) (st : St)
  (path : string) (st1 st2 : St) :
  let scan := trace_of (QRScanner.run W max_attempts delay st) in
  let batch :=
    trace_of (XhsUrlProcessor.process_urls_from_file W path st1) in
  let inter := trace_of (XhsUrlProcessor.process_urls_from_input W st2) in
  (Forall (eq ("800", "2210")) (tapped scan)
   /\ List.length (tapped scan) = count is_dispatch_ok scan)
  /\ (Forall (eq ("865", "2690")) (tapped batch)
      /\ List.length (tapped batch) = count is_dispatch_ok batch)
  /\ (Forall (eq ("865", "2690")) (tapped inter)
      /\ List.length (tapped inter) = count is_dispatch_ok inter).
Proof.
  intros scan batch inter. split; [|split].
  - destruct (run_facts W max_attempts delay st)
      as (r & st' & t & E & _ & _ & Ht & Hl & _).
    unfold scan. rewrite E. split; [exact Ht | exact Hl].
  - destruct (file_batch_facts W path st1) as (st' & t & E & Ht & Hl & _).
    unfold batch. rewrite E. split; [exact Ht | exact Hl].
  - destruct (input_batch_facts W st2) as (r & st' & t & E & Ht & Hl & _).
    unfold inter. rewrite E. split; [exact Ht | exact Hl].
Qed.

End FlowClaims.

(** ** Further properties: strings *)

Module PyStrFacts.

Import PyStr Vocab.
Local Open Scope string_scope.

Lemma rstrip_cons c s :
  rstrip (String c s) =
  match rstrip s with
  | EmptyString => if isspace c then EmptyString else String c EmptyString
  | String d r => String c (String d r)
  end.
Proof. reflexivity. Qed.

Lemma rstrip_idem s : rstrip (rstrip s) = rstrip s.
Proof.
  induction s as [|c s IH]; [reflexivity|].
  rewrite rstrip_cons. destruct (rstrip s) as [|d r] eqn:E.
  - destruct (isspace c) eqn:Ec; [reflexivity|].
    rewrite rstrip_cons. cbn [rstrip]. rewrite Ec. reflexivity.
  - rewrite rstrip_cons, IH. reflexivity.
Qed.

Lemma lstrip_head s :
  match lstrip s with
  | EmptyString => True
  | String c _ => isspace c = false
  end.
Proof.
  induction s as [|c s IH]; simpl; [exact I|].
  destruct (isspace c) eqn:E; [exact IH | exact E].
Qed.

Lemma rstrip_head c s :
  isspace c = false -> exists r, rstrip (String c s) = String c r.
Proof.
  intros H. cbn [rstrip]. destruct (rstrip s).
  - rewrite H. eauto.
  - eauto.
Qed.

Lemma strip_idem s : strip (strip s) = strip s.
Proof.
  unfold strip. pose proof (lstrip_head s) as H.
  destruct (lstrip s) as [|c r] eqn:E; [reflexivity|].
  destruct (rstrip_head c r H) as (r' & Er). rewrite Er.
  cbn [lstrip]. rewrite H, <- Er. apply rstrip_idem.
Qed.

Lemma split_no_sep sep s :
  all_chars (fun c => negb (Ascii.eqb c sep)) s = true ->
  split sep s = [s].
Proof.
  induction s as [|c s IH]; simpl; [reflexivity|].
  intros H. apply andb_true_iff in H as [Hc Hs].
  destruct (Ascii.eqb c sep); [discriminate|].
  rewrite (IH Hs). reflexivity.
Qed.

Lemma clean_strip l : String.eqb (strip l) "" = false -> clean (strip l) = true.
Proof.
  intros H. unfold clean. rewrite H, strip_idem, String.eqb_refl.
  reflexivity.
Qed.

End PyStrFacts.

(** ** Further properties: the device bridge and the screen grabber *)

Module BridgeProps.

Import PyStr Re Sys Vocab Scenarios SysFacts ScanFacts PyStrFacts.

(** X1: for a [size] that is not negative and whose square Pillow does
    not refuse as too many pixels, [capture_screen_center] cuts a square
    whose side is [size] rounded down to an even number, around the
    point [(w // 2, h // 2)] of a screen of [w] by [h] pixels: for an
    even [size] the side is [size], for an odd one [size - 1].  For a
    negative [size] the crop raises [ValueError], and for a square of
    more than twice [MAX_IMAGE_PIXELS] pixels it is refused too. *)
Theorem capture_screen_center_square
  (W : World) (size : Z) (st : St) (w h : Z) :
  screen W (n_grab st) = Some (w, h) ->
  ((0 <= size)%Z ->
   (size * size <= 2 * MAX_IMAGE_PIXELS)%Z ->
   exists left top right bottom,
     QRScanner.capture_screen_center W size st
     = (Val {| shot := n_grab st; box := (left, top, right, bottom) |},
        grabbed st, [EGrab (Some (w, h))])
     /\ (right - left = bottom - top)%Z
     /\ (left + right = 2 * (w / 2))%Z
     /\ (top + bottom = 2 * (h / 2))%Z
     /\ (Z.even size = true -> (right - left = size)%Z)
     /\ (Z.odd size = true -> (right - left = size - 1)%Z))
  /\ ((size < 0)%Z ->
      QRScanner.capture_screen_center W size st
      = (Exc ValueError, grabbed st, [EGrab (Some (w, h))]))
  /\ ((0 <= size)%Z ->
      (2 * MAX_IMAGE_PIXELS < (2 * (size / 2)) * (2 * (size / 2)))%Z ->
      QRScanner.capture_screen_center W size st
      = (Exc OtherError, grabbed st, [EGrab (Some (w, h))])).
Proof.
  intros Hs.
  assert (E : QRScanner.capture_screen_center W size st
              = match Image_crop (n_grab st)
                        ((w / 2 - size / 2)%Z, (h / 2 - size / 2)%Z,
                         (w / 2 + size / 2)%Z, (h / 2 + size / 2)%Z)
                        (grabbed st) with
                | (Val img, st', t) =>
                    (Val img, st', (EGrab (Some (w, h)) :: t)%list)
                | (Exc e, st', t) =>
                    (Exc e, st', (EGrab (Some (w, h)) :: t)%list)
                end).
  { unfold QRScanner.capture_screen_center, bind, ImageGrab_grab.
    rewrite Hs. fold (grabbed st).
    destruct (Image_crop _ _ (grabbed st)) as [[[img|e] st'] t];
      cbn [ret app]; rewrite ?List.app_nil_r; reflexivity. }
  rewrite E. clear E. unfold Image_crop.
  set (half := (size / 2)%Z).
  replace (w / 2 + half - (w / 2 - half))%Z with (2 * half)%Z by lia.
  replace (h / 2 + half - (h / 2 - half))%Z with (2 * half)%Z by lia.
  split; [|split].
  - intros Hpos Hsmall.
    assert (Hh : (0 <= half)%Z) by (apply Z.div_pos; lia).
    assert (Hle : (2 * half <= size)%Z)
      by (unfold half; apply Z.mul_div_le; lia).
    assert ((w / 2 + half <? w / 2 - half)%Z = false) as ->
      by (apply Z.ltb_ge; lia).
    assert ((h / 2 + half <? h / 2 - half)%Z = false) as ->
      by (apply Z.ltb_ge; lia).
    assert ((Z.abs (2 * half) * Z.abs (2 * half)
             >? 2 * MAX_IMAGE_PIXELS)%Z = false) as ->.
    { rewrite Z.gtb_ltb. apply Z.ltb_ge. rewrite Z.abs_eq by lia. nia. }
    cbn [orb ret]. do 4 eexists. split; [reflexivity|].
    split; [lia|]. split; [lia|]. split; [lia|]. split.
    + intros He. apply Z.even_spec in He as [k Hk].
      unfold half. rewrite Hk, (Z.mul_comm 2 k), Z.div_mul by lia. lia.
    + intros Ho. apply Z.odd_spec in Ho as [k Hk].
      unfold half. rewrite Hk, (Z.mul_comm 2 k), Z.div_add_l by lia.
      change (1 / 2)%Z with 0%Z. lia.
  - intros Hneg.
    assert (Hh : (half < 0)%Z) by (apply Z.div_lt_upper_bound; lia).
    assert ((w / 2 + half <? w / 2 - half)%Z = true) as ->
      by (apply Z.ltb_lt; lia).
    reflexivity.
  - intros Hpos Hbig.
    assert (Hh : (0 <= half)%Z) by (apply Z.div_pos; lia).
    assert ((w / 2 + half <? w / 2 - half)%Z = false) as ->
      by (apply Z.ltb_ge; lia).
    assert ((h / 2 + half <? h / 2 - half)%Z = false) as ->
      by (apply Z.ltb_ge; lia).
    assert ((Z.abs (2 * half) * Z.abs (2 * half)
             >? 2 * MAX_IMAGE_PIXELS)%Z = true) as ->.
    { rewrite Z.gtb_ltb. apply Z.ltb_lt. rewrite Z.abs_eq by lia.
      exact Hbig. }
    reflexivity.
Qed.

(** The default square on a 1920x1080 screen. *)
Lemma capture_screen_center_square_witness :
  exists left top right bottom,
    QRScanner.capture_screen_center (world [] [] []) 800 (start [])
    = (Val {| shot := 0; box := (left, top, right, bottom) |},
       grabbed (start []), [EGrab (Some (1920, 1080)%Z)])
    /\ (right - left = bottom - top)%Z
    /\ (left + right = 2 * (1920 / 2))%Z
    /\ (top + bottom = 2 * (1080 / 2))%Z
    /\ (Z.even 800 = true -> (right - left = 800)%Z)
    /\ (Z.odd 800 = true -> (right - left = 800 - 1)%Z).
Proof.
  refine (proj1 (capture_screen_center_square (world [] [] []) 800
                   (start []) 1920 1080 _) _ _).
  - reflexivity.
  - apply Z.leb_le. reflexivity.
  - apply Z.leb_le. reflexivity.
Defined.

(** X2: the two programs' [check_adb_connection] are the same function.
    Each issues [adb devices] once, with a timeout of 10, never raises,
    and returns [True] exactly when the command exits with status 0 and
    some line of its stripped output after the first is not blank and
    contains the text [device]. *)
Theorem check_adb_connection_same_in_both
  (W : World) (st : St) :
  QRScanner.check_adb_connection W st
  = XhsUrlProcessor.check_adb_connection W st
  /\ exists b,
       XhsUrlProcessor.check_adb_connection W st
       = (Val b, bump st,
          [ERun ["adb"; "devices"] 10 (subprocess W (n_run st))])
       /\ (b = true <->
           exists cp line,
             subprocess W (n_run st) = Exited cp
             /\ returncode cp = 0%Z
             /\ In line (tl (split LF (strip (stdout cp))))
             /\ strip line <> ""%string
             /\ contains "device" line = true).
Proof.
  split; [rewrite qr_check_run, xhs_check_run; reflexivity|].
  rewrite xhs_check_run. eexists. split; [reflexivity|].
  unfold devices_ok, XhsUrlProcessor.connected_devices.
  destruct (subprocess W (n_run st)) as [cp|e].
  2:{ split; [discriminate|]. intros (cp & line & H & _). discriminate. }
  set (f := fun line : string =>
              negb (String.eqb (strip line) "") && contains "device" line).
  assert (Hf : forall line,
             In line (filter f (tl (split LF (strip (stdout cp))))) <->
             In line (tl (split LF (strip (stdout cp))))
             /\ strip line <> ""%string /\ contains "device" line = true).
  { intros line. rewrite filter_In. unfold f.
    rewrite andb_true_iff, negb_true_iff, String.eqb_neq. tauto. }
  destruct (returncode cp =? 0)%Z eqn:Er; cbn [andb].
  - apply Z.eqb_eq in Er.
    destruct (filter f (tl (split LF (strip (stdout cp))))) as [|d ds] eqn:E.
    + split; [discriminate|].
      intros (cp' & line & H & _ & Hin).
      injection H as <-. apply (proj2 (Hf line)) in Hin. destruct Hin.
    + split; [|reflexivity]. intros _. exists cp, d.
      split; [reflexivity|]. split; [exact Er|].
      apply Hf. left. reflexivity.
  - split; [discriminate|].
    intros (cp' & line & H & Hr & _). injection H as <-.
    apply Z.eqb_neq in Er. contradiction.
Qed.

(** X3: when the stripped output of [adb devices] is a single line, the
    check finds no device, whatever that line says: the first line is
    always taken for the header. *)
Theorem check_adb_connection_skips_first_line
  (W : World) (st : St) (cp : CompletedProcess) :
  subprocess W (n_run st) = Exited cp ->
  no_LF (strip (stdout cp)) = true ->
  result_of (XhsUrlProcessor.check_adb_connection W st) = Val false
  /\ result_of (QRScanner.check_adb_connection W st) = Val false.
Proof.
  intros Hs Hn.
  rewrite qr_check_run, xhs_check_run. cbn [result_of fst].
  assert (devices_ok (subprocess W (n_run st)) = false) as ->; [|auto].
  rewrite Hs. unfold devices_ok, XhsUrlProcessor.connected_devices.
  rewrite (split_no_sep LF _ Hn). cbn [tl filter].
  apply andb_false_r.
Qed.

(** A header that mentions devices, and nothing below it. *)
Lemma check_adb_connection_skips_first_line_witness :
  result_of
    (XhsUrlProcessor.check_adb_connection
       (world [no_device] [] []) (start []))
  = Val false.
Proof.
  refine (proj1 (check_adb_connection_skips_first_line
                   (world [no_device] [] []) (start []) _ _ _)).
  - reflexivity.
  - reflexivity.
Defined.

(** X4: the two programs' [execute_adb_command] are the same function,
    and [QRScanner.click_coordinate] with its default delay is
    [XhsUrlProcessor.click_coordinate].  Each issues its one command and
    never raises: a timeout, a missing executable and any other error
    all give [False], and the result is [True] exactly when the command
    exits with status 0.  With a negative delay
    [QRScanner.click_coordinate] returns [False] without tapping. *)
Theorem bridge_commands_same_in_both
  (W : World) (st : St) (url : string) (x y : Z) :
  (QRScanner.execute_adb_command W url st
   = XhsUrlProcessor.execute_adb_command W url st
   /\ XhsUrlProcessor.execute_adb_command W url st
      = (Val (cmd_ok (subprocess W (n_run st))), bump st,
         [ERun ["adb"; "shell"; "am"; "start";
                "-a"; "android.intent.action.VIEW"; "-d"; url;
                "com.xingin.xhs"] 30 (subprocess W (n_run st))]))
  /\ (QRScanner.click_coordinate W x y 2 st
      = XhsUrlProcessor.click_coordinate W x y st
      /\ XhsUrlProcessor.click_coordinate W x y st
         = (Val (cmd_ok (subprocess W (n_run st))), bump st,
            [ESleep 2;
             ERun ["adb"; "shell"; "input"; "tap"; str x; str y] 10
                  (subprocess W (n_run st))]))
  /\ (forall delay, (delay < 0)%Z ->
        QRScanner.click_coordinate W x y delay st = (Val false, st, [])).
Proof.
  split; [|split].
  - rewrite qr_execute_run, xhs_execute_run. auto.
  - rewrite qr_click_run, xhs_click_run. auto.
  - intros delay Hd.
    unfold QRScanner.click_coordinate, try_except, bind, sleep.
    apply Z.ltb_lt in Hd. rewrite Hd. reflexivity.
Qed.

End BridgeProps.

(** ** Further properties: validation and extraction *)

Module LinkProps.

Import PyStr Re Sys Vocab ReFacts UrlFacts ValidatorFacts PyStrFacts.
Local Open Scope string_scope.

#[local] Arguments atom_ok : simpl never.

Lemma matches_nil ic len s : matches ic len [] s = true.
Proof. reflexivity. Qed.

Lemma matches_one ic len a p s :
  matches ic len (One a :: p) s =
  match s with
  | String c s' => atom_ok ic a c && matches ic len p s'
  | EmptyString => false
  end.
Proof.
  unfold matches. simpl. destruct s as [|c s']; [reflexivity|].
  destruct (atom_ok ic a c); reflexivity.
Qed.

Lemma matches_opt ic len a p s :
  matches ic len (Opt a :: p) s =
  match s with
  | String c s' =>
      (atom_ok ic a c && matches ic len p s') || matches ic len p s
  | EmptyString => matches ic len p s
  end.
Proof.
  unfold matches. simpl. destruct s as [|c s']; [reflexivity|].
  destruct (atom_ok ic a c); [|reflexivity].
  destruct (m ic len p s'); reflexivity.
Qed.

Lemma matches_star ic len a p s :
  matches ic len (Star a :: p) s =
  match s with
  | String c s' =>
      (atom_ok ic a c && matches ic len (Star a :: p) s')
      || matches ic len p s
  | EmptyString => matches ic len p s
  end.
Proof.
  unfold matches. destruct s as [|c s']; [reflexivity|].
  rewrite m_star_cons. destruct (atom_ok ic a c); [|reflexivity].
  destruct (m ic len (Star a :: p) s'); reflexivity.
Qed.

Lemma matches_rep ic len n a p s :
  matches ic len (Rep n a :: p) s =
  match after_rep ic a n s with
  | Some s' => matches ic len p s'
  | None => false
  end.
Proof.
  unfold matches. rewrite m_rep.
  destruct (after_rep ic a n s); reflexivity.
Qed.

Lemma matches_bol ic len p s :
  matches ic len (Bol :: p) s =
  (String.length s =? len)%nat && matches ic len p s.
Proof.
  unfold matches. simpl. destruct (String.length s =? len)%nat; reflexivity.
Qed.

Lemma matches_mark ic len p s :
  matches ic len (Mark :: p) s = matches ic len p s.
Proof.
  unfold matches. rewrite m_mark. destruct (m ic len p s); reflexivity.
Qed.

Lemma upper_lower c : upper_ascii (lower_ascii c) = upper_ascii c.
Proof. destruct c as [[] [] [] [] [] [] [] []]; reflexivity. Qed.

Lemma lower_or_upper c : c = lower_ascii c \/ c = upper_ascii c.
Proof.
  destruct c as [[] [] [] [] [] [] [] []];
    first [left; reflexivity | right; reflexivity].
Qed.

Lemma lower_LF c : Ascii.eqb (lower_ascii c) LF = Ascii.eqb c LF.
Proof. destruct c as [[] [] [] [] [] [] [] []]; reflexivity. Qed.

(** With [re.IGNORECASE] an atom cannot tell a letter from its lower
    case. *)
Lemma atom_ok_lower a c :
  atom_ok true a (lower_ascii c) = atom_ok true a c.
Proof.
  destruct a as [l| |rs]; unfold atom_ok; cbn [andb].
  - rewrite lower_ascii_idem.
    destruct (Ascii.eqb (lower_ascii l) (lower_ascii c)) eqn:E;
      [rewrite !orb_true_r; reflexivity|].
    rewrite !orb_false_r.
    destruct (Ascii.eqb_spec l (lower_ascii c)) as [->|_].
    + rewrite lower_ascii_idem, Ascii.eqb_refl in E. discriminate.
    + destruct (Ascii.eqb_spec l c) as [->|_]; [|reflexivity].
      rewrite Ascii.eqb_refl in E. discriminate.
  - rewrite lower_LF. reflexivity.
  - rewrite lower_ascii_idem, upper_lower.
    assert (Hc : in_cls rs c = in_cls rs (lower_ascii c)
                 \/ in_cls rs c = in_cls rs (upper_ascii c))
      by (destruct (lower_or_upper c) as [H|H]; [left | right];
          rewrite <- H; reflexivity).
    destruct Hc as [-> | ->];
      destruct (in_cls rs (lower_ascii c)), (in_cls rs (upper_ascii c));
      reflexivity.
Qed.

Lemma length_map_chars f s :
  String.length (map_chars f s) = String.length s.
Proof. induction s; simpl; auto. Qed.

Lemma after_rep_lower a n s :
  after_rep true a n (map_chars lower_ascii s)
  = option_map (map_chars lower_ascii) (after_rep true a n s).
Proof.
  revert s; induction n as [|n IH]; intros [|c s]; simpl; try reflexivity.
  rewrite atom_ok_lower. destruct (atom_ok true a c); [apply IH|reflexivity].
Qed.

(** With [re.IGNORECASE], whether a pattern matches does not depend on
    the case of the ASCII letters of the subject. *)
Lemma matches_lower len p :
  forall s,
    matches true len p (map_chars lower_ascii s) = matches true len p s.
Proof.
  induction p as [|[a|a|a|n a| |] p IH]; intros s.
  - reflexivity.
  - rewrite !matches_one. destruct s as [|c s]; [reflexivity|].
    simpl. rewrite atom_ok_lower, IH. reflexivity.
  - rewrite !matches_opt. destruct s as [|c s]; [apply IH|].
    rewrite <- (IH (String c s)). simpl.
    rewrite atom_ok_lower, IH. reflexivity.
  - induction s as [|c s IHs].
    + rewrite !matches_star. apply IH.
    + rewrite (matches_star _ _ _ _ (String c s)).
      rewrite <- IHs, <- (IH (String c s)). simpl map_chars.
      rewrite matches_star, atom_ok_lower. reflexivity.
  - rewrite !matches_rep, after_rep_lower.
    destruct (after_rep true a n s); [apply IH | reflexivity].
  - rewrite !matches_bol, length_map_chars, IH. reflexivity.
  - rewrite !matches_mark. apply IH.
Qed.

Lemma validate_matches s :
  QRScanner.validate_xhs_url s =
  existsb (fun p => matches true (String.length s) p s)
          QRScanner.xhs_patterns.
Proof.
  unfold QRScanner.validate_xhs_url.
  induction QRScanner.xhs_patterns as [|p ps IH]; [reflexivity|].
  cbn [QRScanner.validate_loop existsb]. unfold re_match, matches at 1.
  destruct (m true (String.length s) p s); [reflexivity | exact IH].
Qed.

(** X5: the validator does not look at the case of ASCII letters anywhere
    in the payload: a payload and its lower-cased form get the same
    verdict. *)
Theorem validate_ignores_letter_case (s : string) :
  QRScanner.validate_xhs_url (map_chars lower_ascii s)
  = QRScanner.validate_xhs_url s.
Proof.
  rewrite !validate_matches, length_map_chars.
  induction QRScanner.xhs_patterns as [|p ps IH]; [reflexivity|].
  cbn [existsb]. rewrite matches_lower, IH. reflexivity.
Qed.

(** X6: only a prefix of the payload decides: whatever is appended to an
    accepted payload, the result is accepted too. *)
Theorem validate_accepts_every_extension (s t : string) :
  QRScanner.validate_xhs_url s = true ->
  QRScanner.validate_xhs_url (s ++ t) = true.
Proof.
  rewrite !validate_cases, !app_uri_some, !with_scheme_some.
  assert (Hw : forall dom,
             (exists sch x,
                 s = sch ++ x
                 /\ (ci_eqb sch "http://" || ci_eqb sch "https://") = true
                 /\ m true (String.length s) (web_tail dom) x <> None) ->
             exists sch x,
               s ++ t = sch ++ x
               /\ (ci_eqb sch "http://" || ci_eqb sch "https://") = true
               /\ m true (String.length (s ++ t)) (web_tail dom) x <> None).
  { intros dom (sch & x & -> & Hs & Hx).
    apply web_tail_some in Hx as (mid & d & rest & -> & Hm & Hd).
    exists sch, (mid ++ d ++ rest ++ t). split.
    - rewrite !ReFacts.app_assoc. reflexivity.
    - split; [exact Hs|]. apply web_tail_some.
      exists mid, d, (rest ++ t). auto. }
  intros [(pre & rest & -> & Hp)|[H|H]].
  - left. exists pre, (rest ++ t). split; [apply ReFacts.app_assoc | exact Hp].
  - right. left. apply Hw, H.
  - right. right. apply Hw, H.
Qed.

(** An accepted payload with a second line appended. *)
Lemma validate_accepts_every_extension_witness :
  QRScanner.validate_xhs_url
    ("https://xhslink.com/a" ++ String LF "second line") = true.
Proof.
  apply (validate_accepts_every_extension "https://xhslink.com/a"
           (String LF "second line")).
  reflexivity.
Defined.

Lemma no_match_unless_explore len s :
  (forall t, s <> "/explore/" ++ t) ->
  m false len XhsUrlProcessor.explore_pattern s = None.
Proof.
  intros H.
  destruct (m false len XhsUrlProcessor.explore_pattern s) as [r|] eqn:E;
    [|reflexivity].
  apply explore_here in E as (tok & rest & Hs & _).
  exfalso. exact (H _ Hs).
Qed.

Lemma search_from_step len c s :
  m false len XhsUrlProcessor.explore_pattern (String c s) = None ->
  search_from false len XhsUrlProcessor.explore_pattern (String c s)
  = search_from false len XhsUrlProcessor.explore_pattern s.
Proof. intros H. cbn [search_from]. rewrite H. reflexivity. Qed.

Lemma search_from_hex_run len id sfx :
  all_chars lower_hex id = true ->
  search_from false len XhsUrlProcessor.explore_pattern (id ++ sfx)
  = search_from false len XhsUrlProcessor.explore_pattern sfx.
Proof.
  induction id as [|c id IH]; [reflexivity|].
  cbn [all_chars]. intros H. apply andb_true_iff in H as [Hc Hid].
  change (String c id ++ sfx) with (String c (id ++ sfx)).
  rewrite search_from_step; [apply IH, Hid|].
  apply no_match_unless_explore. intros t Ht.
  injection Ht as -> _. discriminate Hc.
Qed.

(** X7: the two transforms do not chain.  From a link built by
    [convert_to_app_url] out of lowercase hexadecimal characters,
    [extract_id_from_url] extracts nothing; and every link built by
    [convert_to_app_url] is accepted by [validate_xhs_url]. *)
Theorem built_link_is_an_app_uri_without_identifier (item_id : string) :
  (all_chars lower_hex item_id = true ->
   XhsUrlProcessor.extract_id_from_url
     (XhsUrlProcessor.convert_to_app_url item_id) = None)
  /\ QRScanner.validate_xhs_url
       (XhsUrlProcessor.convert_to_app_url item_id) = true.
Proof.
  split.
  - intros Hhex.
    unfold XhsUrlProcessor.extract_id_from_url, re_search,
      XhsUrlProcessor.convert_to_app_url.
    set (len := String.length _).
    assert (search_from false len XhsUrlProcessor.explore_pattern
              ("xhsdiscover://item/" ++ item_id
               ++ "?source=pcweb_access_limit") = None) as ->;
      [|reflexivity].
    cbn [append].
    do 18 (rewrite search_from_step
             by (apply no_match_unless_explore; intros t Ht;
                 discriminate Ht)).
    rewrite search_from_step.
    + rewrite (search_from_hex_run _ _ _ Hhex). reflexivity.
    + apply no_match_unless_explore. intros t Ht.
      injection Ht as Ht.
      destruct item_id as [|c1 [|c2 id]]; cbn [append] in Ht;
        try discriminate Ht.
      injection Ht as -> ->.
      cbn [all_chars] in Hhex.
      apply andb_true_iff in Hhex as [_ Hhex].
      apply andb_true_iff in Hhex as [Hx _]. discriminate Hx.
  - apply validate_cases. left. apply app_uri_some.
    exists "xhsdiscover://",
      ("item/" ++ item_id ++ "?source=pcweb_access_limit").
    split; reflexivity.
Qed.

End LinkProps.

(** ** Further properties: the batch runner *)

Module BatchProps.

Import PyStr Re Sys Vocab Scenarios SysFacts BatchFacts PyStrFacts.

Lemma file_urls_cons l ls :
  file_urls (l :: ls) =
  if String.eqb (strip l) "" then file_urls ls else strip l :: file_urls ls.
Proof.
  unfold file_urls. cbn [filter]. destruct (String.eqb (strip l) "");
    reflexivity.
Qed.

(** X8: the URLs a file batch works on are the stripped non-blank lines of
    the file: each is non-empty with nothing left to strip, there are no
    more of them than lines, and reading them again as a file changes
    nothing. *)
Theorem file_urls_are_clean (ls : list string) :
  Forall (fun u => clean u = true) (file_urls ls)
  /\ (List.length (file_urls ls) <= List.length ls)%nat
  /\ file_urls (file_urls ls) = file_urls ls.
Proof.
  induction ls as [|l ls (IH1 & IH2 & IH3)].
  - repeat split; constructor.
  - rewrite file_urls_cons.
    destruct (String.eqb (strip l) "") eqn:E.
    + repeat split; auto. simpl. lia.
    + pose proof (clean_strip l E) as Hc.
      split; [constructor; assumption|]. split; [simpl; lia|].
      rewrite file_urls_cons, strip_idem, E, IH3. reflexivity.
Qed.

(** X9: what the collection of the links returns.  It breaks out with
    the stripped lines typed before the first blank line or the end of
    the input, in order, having consumed the terminal input up to and
    including that blank line; an interrupt before that makes it return
    instead, after consuming the input up to the interrupt. *)
Theorem collect_urls_until_blank (keys : list Key) :
  forall acc,
  exists ls keys' t,
    Forall (fun l => String.eqb (strip l) "" = false) ls
    /\ ((XhsUrlProcessor.collect_urls keys acc
         = (XhsUrlProcessor.Break (acc ++ map strip ls), keys', t)
         /\ ((keys = map Typed ls /\ keys' = [])
             \/ exists blank,
                  String.eqb (strip blank) "" = true
                  /\ keys = (map Typed ls ++ Typed blank :: keys')%list))
        \/ (XhsUrlProcessor.collect_urls keys acc
            = (XhsUrlProcessor.Return, keys', t)
            /\ keys = (map Typed ls ++ CtrlC :: keys')%list)).
Proof.
  induction keys as [|[l|] keys IH]; intros acc.
  - exists [], [], [EInput AskUrl None]. split; [constructor|]. left.
    cbn [map]. rewrite List.app_nil_r. split; [reflexivity | left; auto].
  - cbn [XhsUrlProcessor.collect_urls].
    destruct (String.eqb (strip l) "") eqn:E.
    + exists [], keys, [EInput AskUrl (Some (Typed l))].
      split; [constructor|]. left. cbn [map]. rewrite List.app_nil_r.
      split; [reflexivity|]. right. exists l. auto.
    + destruct (IH (acc ++ [strip l])%list)
        as (ls & keys' & t & Hls & H).
      exists (l :: ls), keys', (EInput AskUrl (Some (Typed l)) :: t).
      split; [constructor; assumption|].
      cbn [map]. rewrite <- List.app_assoc in H. cbn [app] in H.
      destruct H as [(Hc & Hk)|(Hc & Hk)]; rewrite Hc.
      * left. split; [reflexivity|].
        destruct Hk as [(-> & ->)|(blank & Hb & ->)];
          [left; auto | right; exists blank; auto].
      * right. split; [reflexivity|]. rewrite Hk. reflexivity.
  - exists [], keys, [EInput AskUrl (Some CtrlC)].
    split; [constructor|]. right. split; reflexivity.
Qed.

(** X10: a file batch that has nothing to work on touches nothing.  When
    the file is missing or unreadable, or has no non-blank line, the only
    event is the opening of the file: no [adb] command at all, no
    summary, and the function returns normally.  When the file has URLs
    but no device is connected, the only command is the connectivity
    check. *)
Theorem file_batch_without_work
  (W : World) (path : string) (st : St) :
  (files W path = Missing \/ files W path = Unreadable
   \/ (exists ls, files W path = Lines ls /\ file_urls ls = []) ->
   XhsUrlProcessor.process_urls_from_file W path st
   = (Val tt, st, [EOpen path]))
  /\ (forall ls,
        files W path = Lines ls ->
        file_urls ls <> [] ->
        devices_ok (subprocess W (n_run st)) = false ->
        XhsUrlProcessor.process_urls_from_file W path st
        = (Val tt, bump st,
           [EOpen path;
            ERun ["adb"; "devices"] 10 (subprocess W (n_run st))])).
Proof.
  split.
  - intros H.
    unfold XhsUrlProcessor.process_urls_from_file, try_except.
    unfold bind at 1, read_lines.
    destruct H as [->|[->|(ls & -> & Hu)]]; try reflexivity.
    fold (file_urls ls). rewrite Hu. reflexivity.
  - intros ls Hls Hne Hd.
    unfold XhsUrlProcessor.process_urls_from_file, try_except.
    unfold bind at 1, read_lines. rewrite Hls.
    fold (file_urls ls). destruct (file_urls ls) as [|u us]; [congruence|].
    rewrite (bind_val _ _ _ _ _ _ (xhs_check_run W st)), Hd.
    reflexivity.
Qed.

(** A missing file. *)
Lemma file_batch_without_work_witness :
  XhsUrlProcessor.process_urls_from_file
    {| subprocess := fun _ => exit0; screen := fun _ => None;
       decode := fun _ => None; files := fun _ => Missing |}
    "urls.txt" (start [])
  = (Val tt, start [], [EOpen "urls.txt"]).
Proof.
  refine (proj1 (file_batch_without_work _ "urls.txt" (start [])) _).
  left. reflexivity.
Defined.

Lemma links_of_app l1 l2 :
  links_of (l1 ++ l2) = (links_of l1 ++ links_of l2)%list.
Proof. apply flat_map_app. Qed.

Lemma linked_app t1 t2 : linked t1 -> linked t2 -> linked (t1 ++ t2).
Proof.
  unfold linked. intros H1 H2.
  rewrite dispatched_app, processed_app, links_of_app, H1, H2. reflexivity.
Qed.

Lemma linked_quiet e t :
  is_dispatch e = false ->
  (forall u, e <> EProcessing u) ->
  linked t -> linked (e :: t).
Proof.
  unfold linked. intros Hd Hp H.
  destruct e; try exact H; try discriminate.
  - unfold is_dispatch in Hd. unfold dispatched in *. cbn [flat_map].
    rewrite Hd. exact H.
  - exfalso. exact (Hp url eq_refl).
Qed.

Lemma linked_nil : linked [].
Proof. reflexivity. Qed.

Section Runs.

Variable W : World.

Lemma single_url_linked url st r st1 t1 :
  single_url_run W url st = (r, st1, t1) ->
  linked t1 /\ count is_input t1 = 0%nat /\ stdin st1 = stdin st.
Proof.
  unfold single_url_run, linked, links_of.
  destruct (XhsUrlProcessor.extract_id_from_url (strip url))
    as [[|c id]|] eqn:E;
    try (intros H; injection H as <- <- <-; cbn [processed flat_map app];
         rewrite E; repeat split).
  destruct (cmd_ok (subprocess W (n_run st)));
    intros H; injection H as <- <- <-; cbn [processed flat_map app];
    rewrite E; repeat split.
Qed.

Lemma file_loop_linked urls :
  forall i n c st r st' t,
    XhsUrlProcessor.file_loop W urls i n c st = (r, st', t) ->
    linked t /\ count is_input t = 0%nat /\ stdin st' = stdin st.
Proof.
  induction urls as [|url rest IH]; intros i n c st r st' t H.
  - injection H as <- <- <-. repeat split.
  - destruct (single_url_facts W url st) as (b & st1 & t1 & E0 & _).
    destruct (single_url_linked _ _ _ _ _ E0) as (L1 & I1 & S1).
    rewrite (file_loop_step _ _ _ _ _ _ _ _ _ _ E0) in H.
    destruct (XhsUrlProcessor.file_loop W rest (i + 1)%Z n (tally b c) st1)
      as [[r2 st2] t2] eqn:E.
    injection H as <- <- <-.
    destruct (IH _ _ _ _ _ _ _ E) as (L2 & I2 & S2).
    split; [|split].
    + apply linked_app; [exact L1|].
      destruct (i <? n)%Z; [|exact L2].
      apply linked_quiet; [reflexivity | discriminate | exact L2].
    + rewrite !count_app, I1, I2. destruct (i <? n)%Z; reflexivity.
    + congruence.
Qed.

Lemma input_loop_linked urls :
  forall i n c st r st' t,
    XhsUrlProcessor.input_loop W urls i n c st = (r, st', t) ->
    linked t.
Proof.
  induction urls as [|url rest IH]; intros i n c st r st' t H.
  - injection H as <- <- <-. exact linked_nil.
  - destruct (single_url_facts W url st) as (b & st1 & t1 & E0 & _).
    destruct (single_url_linked _ _ _ _ _ E0) as (L1 & _).
    rewrite (input_loop_step _ _ _ _ _ _ _ _ _ _ E0) in H.
    assert (Lq : forall k, linked [EInput AskContinue k]) by (intros; reflexivity).
    destruct (i <? n)%Z.
    + destruct (stdin st1) as [|[l|] keys].
      * injection H as <- <- <-. apply linked_app; auto.
      * destruct (String.eqb (lower (strip l)) "q").
        -- injection H as <- <- <-. apply linked_app; auto.
        -- destruct (XhsUrlProcessor.input_loop W rest (i + 1)%Z n
                       (tally b c) (with_stdin st1 keys))
             as [[r2 st2] t2] eqn:E.
           injection H as <- <- <-. apply linked_app; [exact L1|].
           apply linked_quiet; [reflexivity | discriminate|].
           exact (IH _ _ _ _ _ _ _ E).
      * injection H as <- <- <-. apply linked_app; auto.
    + destruct (XhsUrlProcessor.input_loop W rest (i + 1)%Z n (tally b c)
                  st1) as [[r2 st2] t2] eqn:E.
      injection H as <- <- <-. apply linked_app; [exact L1|].
      exact (IH _ _ _ _ _ _ _ E).
Qed.

Lemma no_dispatch_nothing_dispatched t :
  count is_dispatch t = 0%nat -> dispatched t = [].
Proof.
  unfold count, dispatched. induction t as [|e t IH]; [reflexivity|].
  cbn [filter flat_map]. destruct e; cbn [is_dispatch]; auto.
  destruct (starts_with ["adb"; "shell"; "am"; "start"] argv);
    [discriminate | exact IH].
Qed.

Lemma collect_urls_linked keys acc r keys' t :
  XhsUrlProcessor.collect_urls keys acc = (r, keys', t) ->
  linked t /\ count is_run t = 0%nat.
Proof.
  intros H. destruct (collect_urls_quiet _ _ _ _ _ H) as (Hp & _ & _ & _ & Hc).
  split; [|apply Hc; reflexivity].
  unfold linked. rewrite Hp, no_dispatch_nothing_dispatched;
    [reflexivity | apply Hc; reflexivity].
Qed.

Lemma file_batch_linked path st :
  exists st' t,
    XhsUrlProcessor.process_urls_from_file W path st = (Val tt, st', t)
    /\ linked t /\ count is_input t = 0%nat /\ stdin st' = stdin st.
Proof.
  unfold XhsUrlProcessor.process_urls_from_file, try_except.
  unfold bind at 1, read_lines.
  destruct (files W path) as [ls| |];
    try (do 2 eexists; split; [reflexivity|]; repeat split).
  fold (file_urls ls).
  destruct (file_urls ls) as [|u us];
    [do 2 eexists; split; [reflexivity|]; repeat split|].
  rewrite (bind_val _ _ _ _ _ _ (xhs_check_run W st)).
  destruct (devices_ok (subprocess W (n_run st)));
    [|do 2 eexists; split; [reflexivity|]; repeat split].
  cbn [negb].
  destruct (file_loop_facts W (u :: us) 1 (Zlen (u :: us)) 0 (bump st))
    as (c' & st' & t & E & _).
  destruct (file_loop_linked _ _ _ _ _ _ _ _ E) as (L & I & S).
  rewrite (bind_val _ _ _ _ _ _ E). cbn [emit].
  do 2 eexists. split; [reflexivity|]. cbn [app]. split; [|split].
  - apply linked_quiet; [reflexivity | discriminate|].
    apply linked_quiet; [reflexivity | discriminate|].
    apply linked_app; [exact L | reflexivity].
  - rewrite !count_cons_false, count_app, I by reflexivity. reflexivity.
  - exact S.
Qed.

Lemma input_batch_outcome st :
  exists r st' t,
    XhsUrlProcessor.process_urls_from_input W st = (r, st', t)
    /\ linked t
    /\ ((r = Val tt /\ ~ In None (continue_answers t))
        \/ (r = Exc EOFError /\ In None (continue_answers t)
            /\ summaries t = [])).
Proof.
  unfold XhsUrlProcessor.process_urls_from_input.
  rewrite (bind_val _ _ _ _ _ _ (xhs_check_run W st)).
  set (out := subprocess W (n_run st)) in *.
  destruct (devices_ok out).
  2:{ do 3 eexists. split; [reflexivity|]. split; [reflexivity|].
      left. split; [reflexivity | intros []]. }
  cbn [negb]. unfold bind at 1, XhsUrlProcessor.read_urls.
  change (stdin (bump st)) with (stdin st).
  destruct (XhsUrlProcessor.collect_urls (stdin st) [])
    as [[r0 keys0] t0] eqn:Ecol.
  destruct (collect_urls_quiet _ _ _ _ _ Ecol) as (_ & _ & Qm & Qa & _).
  destruct (collect_urls_linked _ _ _ _ _ Ecol) as (L0 & _).
  assert (Q : forall t,
             linked t ->
             linked ([ERun ["adb"; "devices"] 10 out] ++ t0 ++ t)
             /\ continue_answers ([ERun ["adb"; "devices"] 10 out] ++ t0 ++ t)
                = continue_answers t
             /\ summaries ([ERun ["adb"; "devices"] 10 out] ++ t0 ++ t)
                = summaries t).
  { intros t Lt. cbn [app]. split; [|split].
    - apply linked_quiet; [reflexivity | discriminate|].
      apply linked_app; assumption.
    - change (continue_answers (ERun ["adb"; "devices"] 10 out :: t0 ++ t))
        with (continue_answers (t0 ++ t)).
      rewrite continue_answers_app, Qa. reflexivity.
    - change (summaries (ERun ["adb"; "devices"] 10 out :: t0 ++ t))
        with (summaries (t0 ++ t)).
      rewrite summaries_app, Qm. reflexivity. }
  destruct r0 as [[|u us]|].
  - cbn [ret]. do 3 eexists. split; [reflexivity|].
    destruct (Q [] linked_nil) as (Q1 & Q2 & _). split; [exact Q1|].
    left. rewrite Q2. split; [reflexivity | intros []].
  - destruct (input_loop_facts W (u :: us) 1 (Zlen (u :: us)) 0
                (with_stdin (bump st) keys0) ltac:(lia))
      as (r & st' & t & E & _ & _ & Ir & _ & _ & Im & _).
    pose proof (input_loop_linked _ _ _ _ _ _ _ _ E) as L.
    change {| n_run := n_run (bump st); n_grab := n_grab (bump st);
              stdin := keys0 |} with (with_stdin (bump st) keys0).
    destruct Ir as [[-> Hno]|[-> Hin]].
    + rewrite (bind_val _ _ _ _ _ _ E). cbn [emit].
      do 3 eexists. split; [reflexivity|].
      set (sm := ESummary _ _).
      assert (Ls : linked (t ++ [sm]))
        by (apply linked_app; [exact L | reflexivity]).
      destruct (Q _ Ls) as (Q1 & Q2 & _). split; [exact Q1|].
      left. rewrite Q2, continue_answers_app, List.app_nil_r.
      split; [reflexivity | exact Hno].
    + rewrite (bind_exc _ _ _ _ _ _ E).
      do 3 eexists. split; [reflexivity|].
      destruct (Q _ L) as (Q1 & Q2 & Q3). split; [exact Q1|].
      right. rewrite Q2, Q3. auto.
  - cbn [ret]. do 3 eexists. split; [reflexivity|].
    destruct (Q [] linked_nil) as (Q1 & Q2 & _). split; [exact Q1|].
    left. rewrite Q2. split; [reflexivity | intros []].
Qed.

End Runs.

End BatchProps.

(** ** Further properties: whole batches *)

Module BatchRunProps.

Import PyStr Re Sys Vocab Scenarios SysFacts BatchFacts BatchProps.

(** X11: started with a file argument, [main] runs the file batch, which
    always returns normally, never prompts and leaves the terminal input
    as it found it. *)
Theorem file_mode_leaves_the_terminal_alone
  (W : World) (script path : string) (more : list string) (st : St) :
  let this := XhsUrlProcessor.main W (script :: path :: more) st in
  this = XhsUrlProcessor.process_urls_from_file W path st
  /\ result_of this = Val tt
  /\ count is_input (trace_of this) = 0%nat
  /\ stdin (snd (fst this)) = stdin st.
Proof.
  intros this. unfold this. cbn [XhsUrlProcessor.main].
  destruct (file_batch_linked W path st) as (st' & t & E & _ & I & S).
  rewrite E. repeat split; assumption.
Qed.

(** X12: how an interactive batch ends.  It returns normally, or it
    raises [EOFError]; it raises exactly when the terminal input ends at
    a continue prompt, and then no summary is printed.  Without a
    connected device it returns before reading the terminal; after an
    interrupt during the entry of the links, and when no link was
    entered, it returns having issued no command but the connectivity
    check. *)
Theorem interactive_batch_outcomes (W : World) (st : St) :
  let this := XhsUrlProcessor.process_urls_from_input W st in
  let out := subprocess W (n_run st) in
  ((result_of this = Val tt
    /\ ~ In None (continue_answers (trace_of this)))
   \/ (result_of this = Exc EOFError
       /\ In None (continue_answers (trace_of this))
       /\ summaries (trace_of this) = []))
  /\ (devices_ok out = false ->
      this = (Val tt, bump st, [ERun ["adb"; "devices"] 10 out]))
  /\ (forall r keys' t0,
        devices_ok out = true ->
        XhsUrlProcessor.collect_urls (stdin st) [] = (r, keys', t0) ->
        r = XhsUrlProcessor.Return \/ r = XhsUrlProcessor.Break [] ->
        this = (Val tt, with_stdin (bump st) keys',
                ERun ["adb"; "devices"] 10 out :: t0)).
Proof.
  intros this out. split; [|split].
  - destruct (input_batch_outcome W st) as (r & st' & t & E & _ & H).
    unfold this. rewrite E. exact H.
  - intros Hd. unfold this, XhsUrlProcessor.process_urls_from_input.
    rewrite (bind_val _ _ _ _ _ _ (xhs_check_run W st)).
    fold out. rewrite Hd. reflexivity.
  - intros r keys' t0 Hd Hc Hr.
    unfold this, XhsUrlProcessor.process_urls_from_input.
    rewrite (bind_val _ _ _ _ _ _ (xhs_check_run W st)).
    fold out. rewrite Hd. cbn [negb].
    unfold bind at 1, XhsUrlProcessor.read_urls.
    change (stdin (bump st)) with (stdin st). rewrite Hc.
    destruct Hr as [-> | ->]; cbn [ret app]; rewrite List.app_nil_r;
      reflexivity.
Qed.

(** X13: what a batch dispatches.  In both modes the URIs handed to
    [am start] are, in order, the deep links of the processed URLs that
    have an identifier: a URL without identifier causes no dispatch, a
    URL with one exactly one.  For a file batch with a device connected
    these are the links of all the kept lines of the file. *)
Theorem batch_dispatches_the_links_of_its_urls
  (W : World) (path : string) (st st' : St) :
  let batch :=
    trace_of (XhsUrlProcessor.process_urls_from_file W path st) in
  let inter := trace_of (XhsUrlProcessor.process_urls_from_input W st') in
  dispatched batch = links_of (processed batch)
  /\ dispatched inter = links_of (processed inter)
  /\ (forall ls,
        files W path = Lines ls ->
        devices_ok (subprocess W (n_run st)) = true ->
        dispatched batch = links_of (file_urls ls)).
Proof.
  intros batch inter.
  destruct (file_batch_linked W path st) as (s1 & t1 & E1 & L1 & _).
  destruct (input_batch_outcome W st') as (r2 & s2 & t2 & E2 & L2 & _).
  destruct (file_batch_facts W path st) as (s3 & t3 & E3 & _ & _ & H3).
  unfold batch, inter. rewrite E1, E2. cbn [trace_of snd].
  split; [exact L1|]. split; [exact L2|].
  intros ls Hls Hd. rewrite E1 in E3. injection E3 as <- <-.
  destruct (H3 ls Hls Hd) as (Hp & _). rewrite <- Hp. exact L1.
Qed.

End BatchRunProps.

(** ** Further properties: the scan run *)

Module ScanProps.

Import PyStr Re Sys Vocab Scenarios SysFacts ScanFacts BatchFacts.

Section Runs.

Variable W : World.





End Runs.


End ScanProps.

Module ScanRunProps.

Import PyStr Re Sys Vocab Scenarios SysFacts ScanFacts ScanProps.






(** X17: a scan run dispatches at most once, and never anything but what
    it read from the screen: the URI it dispatches is the first payload
    of one of its decodings, not empty, and accepted by
    [validate_xhs_url]. *)
Theorem run_dispatches_only_what_it_decoded
  (W : World) (max_attempts delay : Z) (st : St) :
  let t := trace_of (QRScanner.run W max_attempts delay st) in
  (count is_dispatch t <= 1)%nat
  /\ forall u,
       In u (dispatched t) ->
       In u (decoded_first t)
       /\ QRScanner.validate_xhs_url u = true
       /\ u <> ""%string.
Proof.
  intros t.
  destruct (run_facts W max_attempts delay st)
    as (r & st' & t' & E & _ & _ & _ & _ & _ & Ha & _ & Hfs & _).
  unfold t. rewrite E. cbn [trace_of snd]. split; [exact Ha|].
  intros u Hu. apply Hfs, filter_In in Hu as [Hin Hv].
  repeat split; auto. intros ->. discriminate Hv.
Qed.

End ScanRunProps.

(** ** Further properties: one URL *)

Module ItemProps.

Import PyStr Re Sys Vocab Scenarios ReFacts UrlFacts SysFacts PyStrFacts.
Local Open Scope string_scope.

Lemma explore_len len len' s :
  m false len XhsUrlProcessor.explore_pattern s
  = m false len' XhsUrlProcessor.explore_pattern s.
Proof.
  unfold XhsUrlProcessor.explore_pattern. rewrite !m_lits.
  destruct (after_lits false "/explore/" s) as [s1|]; [|reflexivity].
  rewrite !m_mark, !m_rep.
  destruct (after_rep false _ 24 s1); reflexivity.
Qed.

Lemma search_from_len len len' s :
  search_from false len XhsUrlProcessor.explore_pattern s
  = search_from false len' XhsUrlProcessor.explore_pattern s.
Proof.
  induction s as [|c s IH]; cbn [search_from];
    rewrite (explore_len len len'); [reflexivity|].
  rewrite IH. reflexivity.
Qed.

(** The extractor, by recursion on the URL. *)
Lemma extract_cons c s :
  XhsUrlProcessor.extract_id_from_url (String c s) =
  match m false 0 XhsUrlProcessor.explore_pattern (String c s) with
  | Some r => Some (group1 {| marks := r |})
  | None => XhsUrlProcessor.extract_id_from_url s
  end.
Proof.
  unfold XhsUrlProcessor.extract_id_from_url, re_search.
  cbn [search_from].
  rewrite (explore_len _ 0).
  destruct (m false 0 XhsUrlProcessor.explore_pattern (String c s));
    [reflexivity|].
  rewrite (search_from_len _ (String.length s)). reflexivity.
Qed.

Lemma space_not_hex c : isspace c = true -> lower_hex c = false.
Proof. destruct c as [[] [] [] [] [] [] [] []]; intros H; try reflexivity; discriminate H. Qed.

(** No character of an occurrence is white space. *)
Lemma occurrence_no_space tok :
  is_id24 tok = true ->
  all_chars (fun c => negb (isspace c)) ("/explore/" ++ tok) = true.
Proof.
  unfold is_id24. intros H. apply andb_true_iff in H as [_ H].
  change (all_chars (fun c => negb (isspace c)) tok = true).
  induction tok as [|c tok IH]; [reflexivity|].
  cbn [all_chars] in *. apply andb_true_iff in H as [Hc H].
  rewrite (IH H), andb_true_r.
  destruct (isspace c) eqn:E; [|reflexivity].
  rewrite (space_not_hex c E) in Hc. discriminate.
Qed.

(** A run of non-space characters that starts [a ++ ws], [ws] white
    space, starts [a]. *)
Lemma prefix_before_spaces p :
  forall a ws r,
    all_chars (fun c => negb (isspace c)) p = true ->
    all_chars isspace ws = true ->
    a ++ ws = p ++ r ->
    exists r', a = p ++ r'.
Proof.
  induction p as [|c p IH]; intros a ws r Hp Hw E.
  - exists a. reflexivity.
  - cbn [all_chars] in Hp. apply andb_true_iff in Hp as [Hc Hp].
    destruct a as [|d a].
    + destruct ws as [|w ws]; [discriminate|].
      cbn [append] in E. injection E as -> _.
      cbn [all_chars] in Hw. apply andb_true_iff in Hw as [Hw _].
      rewrite Hw in Hc. discriminate.
    + cbn [append] in E. injection E as -> E.
      destruct (IH _ _ _ Hp Hw E) as (r' & ->). exists r'. reflexivity.
Qed.

Lemma match_before_spaces s ws :
  all_chars isspace ws = true ->
  match m false 0 XhsUrlProcessor.explore_pattern s with
  | Some r =>
      exists r',
        m false 0 XhsUrlProcessor.explore_pattern (s ++ ws) = Some r'
        /\ group1 {| marks := r' |} = group1 {| marks := r |}
  | None => m false 0 XhsUrlProcessor.explore_pattern (s ++ ws) = None
  end.
Proof.
  intros Hw.
  destruct (m false 0 XhsUrlProcessor.explore_pattern s) as [r|] eqn:E.
  - apply explore_here in E as (tok & rest & -> & Hid & ->).
    exists [tok ++ rest ++ ws; rest ++ ws]. split.
    + apply explore_here. exists tok, (rest ++ ws).
      rewrite !ReFacts.app_assoc. auto.
    + rewrite !group1_marks. reflexivity.
  - destruct (m false 0 XhsUrlProcessor.explore_pattern (s ++ ws))
      as [r'|] eqn:E'; [|reflexivity].
    exfalso. apply explore_here in E' as (tok & rest & Hs & Hid & _).
    rewrite <- ReFacts.app_assoc in Hs.
    destruct (prefix_before_spaces _ _ _ _ (occurrence_no_space tok Hid)
                Hw Hs) as (r0 & Hr).
    assert (m false 0 XhsUrlProcessor.explore_pattern s
            = Some [tok ++ r0; r0]).
    { apply explore_here. exists tok, r0.
      rewrite Hr, ReFacts.app_assoc. auto. }
    congruence.
Qed.

Lemma extract_spaces ws :
  all_chars isspace ws = true ->
  XhsUrlProcessor.extract_id_from_url ws = None.
Proof.
  induction ws as [|c ws IH]; [reflexivity|].
  cbn [all_chars]. intros H. apply andb_true_iff in H as [Hc H].
  rewrite extract_cons.
  destruct (m false 0 XhsUrlProcessor.explore_pattern (String c ws))
    as [r|] eqn:E; [|exact (IH H)].
  apply explore_here in E as (tok & rest & Hs & _).
  injection Hs as -> _. discriminate Hc.
Qed.

Lemma extract_app_spaces s ws :
  all_chars isspace ws = true ->
  XhsUrlProcessor.extract_id_from_url (s ++ ws)
  = XhsUrlProcessor.extract_id_from_url s.
Proof.
  intros Hw. induction s as [|c s IH].
  - cbn [append]. rewrite (extract_spaces ws Hw). reflexivity.
  - change (String c s ++ ws) with (String c (s ++ ws)).
    rewrite !extract_cons.
    pose proof (match_before_spaces (String c s) ws Hw) as H.
    change (String c s ++ ws) with (String c (s ++ ws)) in H.
    destruct (m false 0 XhsUrlProcessor.explore_pattern (String c s)).
    + destruct H as (r' & -> & ->). reflexivity.
    + rewrite H. exact IH.
Qed.

Lemma rstrip_split s :
  exists ws, s = rstrip s ++ ws /\ all_chars isspace ws = true.
Proof.
  induction s as [|c s (ws & Hs & Hw)].
  - exists "". auto.
  - rewrite rstrip_cons. destruct (rstrip s) as [|d r] eqn:E.
    + cbn [append] in Hs. subst ws. destruct (isspace c) eqn:Ec.
      * exists (String c s). cbn [append all_chars]. rewrite Ec, Hw. auto.
      * exists s. auto.
    + exists ws. cbn [append] in *. rewrite <- Hs. auto.
Qed.

Lemma extract_lstrip s :
  XhsUrlProcessor.extract_id_from_url (lstrip s)
  = XhsUrlProcessor.extract_id_from_url s.
Proof.
  induction s as [|c s IH]; [reflexivity|].
  cbn [lstrip]. destruct (isspace c) eqn:Ec; [|reflexivity].
  rewrite IH, (extract_cons c s).
  destruct (m false 0 XhsUrlProcessor.explore_pattern (String c s))
    as [r|] eqn:E; [|reflexivity].
  apply explore_here in E as (tok & rest & Hs & _).
  injection Hs as -> _. discriminate Ec.
Qed.

Lemma extract_strip url :
  XhsUrlProcessor.extract_id_from_url (strip url)
  = XhsUrlProcessor.extract_id_from_url url.
Proof.
  unfold strip.
  destruct (rstrip_split (lstrip url)) as (ws & Hs & Hw).
  rewrite <- (extract_lstrip url). rewrite Hs at 2.
  rewrite (extract_app_spaces _ _ Hw). reflexivity.
Qed.

(** X18: white space around a URL does not matter to the extractor:
    stripping the URL first, as [process_single_url] does, never changes
    what is extracted; nor does stripping only one side. *)
Theorem extract_id_ignores_surrounding_space (url : string) :
  XhsUrlProcessor.extract_id_from_url (strip url)
  = XhsUrlProcessor.extract_id_from_url url
  /\ XhsUrlProcessor.extract_id_from_url (lstrip url)
     = XhsUrlProcessor.extract_id_from_url url
  /\ XhsUrlProcessor.extract_id_from_url (rstrip url)
     = XhsUrlProcessor.extract_id_from_url url.
Proof.
  split; [apply extract_strip|]. split; [apply extract_lstrip|].
  destruct (rstrip_split url) as (ws & Hs & Hw).
  rewrite Hs at 2. rewrite (extract_app_spaces _ _ Hw). reflexivity.
Qed.

(** X19: what the processing of one URL does.  It never raises and never
    reads the terminal.  Without an identifier in the URL it issues no
    command and returns [False]; with one, it dispatches the deep link of
    that identifier once; if the dispatch fails it returns [False]
    without tapping, and if it succeeds it pauses for 2, taps once at
    865 2690 and returns [True] whatever the tap does. *)
Theorem process_single_url_outcomes
  (W : World) (url : string) (st : St) :
  let this := XhsUrlProcessor.process_single_url W url st in
  let out := subprocess W (n_run st) in
  match XhsUrlProcessor.extract_id_from_url url with
  | None => this = (Val false, st, [EProcessing url])
  | Some item_id =>
      let dispatch :=
        ERun (am_start (XhsUrlProcessor.convert_to_app_url item_id)) 30 out
      in
      if cmd_ok out then
        this = (Val true, bump (bump st),
                [EProcessing url; dispatch; ESleep 2;
                 ERun (input_tap "865" "2690") 10
                      (subprocess W (S (n_run st)))])
      else this = (Val false, bump st, [EProcessing url; dispatch])
  end.
Proof.
  intros this out. unfold this.
  rewrite process_single_url_run. unfold single_url_run.
  rewrite extract_strip.
  destruct (XhsUrlProcessor.extract_id_from_url url) as [id|] eqn:E;
    [|reflexivity].
  destruct (extract_some url id E) as (Hid & _).
  destruct id as [|c id]; [discriminate Hid|].
  fold out. destruct (cmd_ok out); reflexivity.
Qed.

End ItemProps.
